(** * tg-assistant-infra: the resource-topology builder, embedded and verified

  Sources embedded here:
  - [infrastructure/lib/sqs-stack.ts]          (class [SQSStack])
  - [infrastructure/lib/api-gateway-stack.ts]  (class [ApiGatewayStack])
  - [infrastructure/bin/tg-assistant-infra.ts] (the app entry point)

  A CDK construct is data: [new Queue(this, id, props)] registers the
  construct under [id] in the enclosing stack and hands back a reference
  to it.  The embedding keeps exactly that: a stack body is a computation
  over the stack's construct table (creation order preserved), a
  reference is the construct id, and a deploy-time attribute of a
  construct ([queue.queueArn], [key.keyArn], ...) is a symbolic token
  naming the construct and the attribute. *)

From Stdlib Require Import String Ascii List ZArith Bool Lia.
From Stdlib Require Import Decimal DecimalString.
Import ListNotations.
Open Scope string_scope.

(* ------------------------------------------------------------------ *)
(** ** JavaScript values used by the sources *)

Module JS.

(** [a ?? b] : the left operand unless it is [undefined]. *)
Definition nullish {A : Type} (a : option A) (b : A) : A :=
  match a with
  | Some v => v
  | None => b
  end.

(** [a ?? b] where [b] may itself be [undefined]. *)
Definition nullish_opt {A : Type} (a b : option A) : option A :=
  match a with
  | Some v => Some v
  | None => b
  end.

(** [o?.f] : optional chaining into an optional field. *)
Definition chain {A B : Type} (o : option A) (f : A -> option B) : option B :=
  match o with
  | Some v => f v
  | None => None
  end.

(** Truthiness of a [string | undefined]: the empty string is falsy. *)
Definition truthy (o : option string) : bool :=
  match o with
  | Some s => negb (s =? EmptyString)
  | None => false
  end.

(** What TypeScript knows of a [string | undefined] under a truthiness
    guard: a non-empty string. *)
Definition narrow (o : option string) : option string :=
  match o with
  | Some s => if s =? EmptyString then None else Some s
  | None => None
  end.

(** A number inside a template literal or [JSON.stringify].  The numbers of
    the props are taken to be integers, printed in decimal; fractions, NaN,
    the infinities and the exponent form of large numbers are outside the
    embedding. *)
Definition number_to_string (n : Z) : string :=
  NilZero.string_of_int (Z.to_int n).

(** [xs.join(sep)] *)
Definition join (sep : string) (xs : list string) : string :=
  String.concat sep xs.

Definition dquote : string := String "034"%char EmptyString.

(** The JSON documents the sources serialise: objects and numbers. *)
Inductive json :=
| JNum (n : Z)
| JObj (fields : members)
with members :=
| MNil
| MCons (key : string) (value : json) (rest : members).

Fixpoint stringify (j : json) : string :=
  match j with
  | JNum n => number_to_string n
  | JObj fields => "{" ++ stringify_members fields ++ "}"
  end
with stringify_members (ms : members) : string :=
  match ms with
  | MNil => EmptyString
  | MCons k v MNil => dquote ++ k ++ dquote ++ ":" ++ stringify v
  | MCons k v rest =>
      dquote ++ k ++ dquote ++ ":" ++ stringify v ++ ","
        ++ stringify_members rest
  end.

End JS.

Notation "a ?? b" := (JS.nullish a b) (at level 45, left associativity).

(* ------------------------------------------------------------------ *)
(** ** The part of the CDK the sources build with *)

Module Cdk.

Definition ConstructId := string.

(** A string that may only be known at deploy time. *)
Inductive Str :=
| Lit (s : string)
| Attr (owner : ConstructId) (attribute : string)
| ArnFormat (service : string) (resource : Str) (resourceName : string).

Definition is_wildcard (r : Str) : bool :=
  match r with
  | Lit s => s =? "*"
  | _ => false
  end.

Inductive TimeUnit := Seconds | Minutes | Days.

Record Duration := { amount : Z; timeUnit : TimeUnit }.

(** [Duration.seconds(n)] and the like, as the value they build.  That the
    library throws on a negative amount is kept apart, in [Validation]. *)
Module Duration.
Definition seconds (n : Z) : Duration := {| amount := n; timeUnit := Seconds |}.
Definition minutes (n : Z) : Duration := {| amount := n; timeUnit := Minutes |}.
Definition days (n : Z) : Duration := {| amount := n; timeUnit := Days |}.
Definition toSeconds (d : Duration) : Z :=
  match timeUnit d with
  | Seconds => amount d
  | Minutes => amount d * 60
  | Days => amount d * 86400
  end.
End Duration.

Record Environment := { account : option string; region : option string }.

Record StackProps := {
  env : option Environment;
  description : option string;
  tags : option (list (string * string));
}.

(** [Stack.account]: the configured account, else the deploy-time one. *)
Definition Stack_account (p : StackProps) : Str :=
  match JS.chain (env p) account with
  | Some a => Lit a
  | None => Attr "AWS" "AccountId"
  end.

(** *** aws-kms *)
Record KeyProps := {
  key_description : string;
  enableKeyRotation : bool;
}.

(** *** aws-sqs *)
Record DeadLetterQueue := {
  queue : ConstructId;
  maxReceiveCount : Z;
}.

Record QueueProps := {
  queueName : string;
  visibilityTimeout : option Duration;
  retentionPeriod : option Duration;
  receiveMessageWaitTime : option Duration;
  deadLetterQueue : option DeadLetterQueue;
  encryptionMasterKey : option ConstructId;
}.

(** *** aws-iam *)
Inductive Effect := ALLOW | DENY.

Record PolicyStatement := {
  effect : Effect;
  actions : list string;
  resources : list Str;
  conditions : list (string * list (string * Str));
}.

Record RoleProps := {
  roleName : string;
  assumedBy : string;
  managedPolicies : list string;
  inlinePolicies : list (string * list PolicyStatement);
}.

(** *** aws-cloudwatch *)
Inductive TreatMissingData := BREACHING | NOT_BREACHING | IGNORE | MISSING.

Record Metric := {
  metricName : string;
  metricOf : ConstructId;
  period : option Duration;
  statistic : option string;
}.

Record AlarmProps := {
  alarmName : string;
  alarmDescription : string;
  metric : Metric;
  threshold : Z;
  evaluationPeriods : Z;
  treatMissingData : option TreatMissingData;
}.

(** [new SnsAction(topic)] *)
Inductive AlarmAction := SnsAction (topic : ConstructId).

(** *** aws-sns *)
Record TopicProps := {
  topicName : string;
  displayName : string;
  masterKey : option ConstructId;
}.

(** *** aws-ssm *)
Record StringParameterProps := {
  parameterName : string;
  stringValue : Str;
  parameter_description : string;
}.

(** *** aws-apigateway, aws-certificatemanager, aws-route53 *)
Inductive EndpointType := REGIONAL | EDGE | PRIVATE.
Inductive MethodLoggingLevel := LOG_OFF | LOG_ERROR | LOG_INFO.
Inductive SecurityPolicy := TLS_1_0 | TLS_1_2.

Record StageOptions := {
  stageName : string;
  throttlingRateLimit : Z;
  throttlingBurstLimit : Z;
  loggingLevel : MethodLoggingLevel;
  dataTraceEnabled : bool;
  metricsEnabled : bool;
}.

Record RestApiProps := {
  restApiName : string;
  api_description : string;
  endpointConfiguration : list EndpointType;
  disableExecuteApiEndpoint : bool;
  deployOptions : StageOptions;
}.

Record LambdaIntegration := {
  handler : ConstructId;
  proxy : bool;
  timeout : Duration;
}.

(** One resource under the API root, with the methods added to it. *)
Record ApiResource := {
  pathPart : string;
  methods : list (string * LambdaIntegration);
}.

Record DomainNameProps := {
  dn_domainName : string;
  certificate : ConstructId;
  endpointType : EndpointType;
  securityPolicy : SecurityPolicy;
}.

Record DomainNameAttributes := {
  attr_domainName : string;
  domainNameAliasTarget : string;
  domainNameAliasHostedZoneId : string;
}.

Record BasePathMappingProps := {
  bpm_domainName : ConstructId;
  bpm_restApi : ConstructId;
  basePath : string;
  stage : Str;
}.

Record HostedZoneAttributes := {
  hostedZoneId : string;
  zoneName : string;
}.

Record ARecordProps := {
  zone : ConstructId;
  recordName : string;
  target : ConstructId;   (* RecordTarget.fromAlias(new ApiGatewayDomain(d)) *)
}.

(** Everything a stack body can register.  The [Imported...] constructs
    come from the [fromXxx] factories: they are references to things that
    exist elsewhere and provision nothing. *)
Inductive Construct :=
| Key (p : KeyProps)
| Queue (p : QueueProps)
| Role (p : RoleProps)
| Alarm (p : AlarmProps) (alarmActions okActions : list AlarmAction)
| Topic (p : TopicProps)
| StringParameter (p : StringParameterProps)
| RestApi (p : RestApiProps) (children : list ApiResource)
| DomainName (p : DomainNameProps)
| BasePathMapping (p : BasePathMappingProps)
| ARecord (p : ARecordProps)
| ImportedFunction (functionName : string)
| ImportedCertificate (certificateArn : string)
| ImportedDomainName (a : DomainNameAttributes)
| ImportedHostedZone (a : HostedZoneAttributes).

(** The construct table of one stack, in creation order. *)
Definition Scope := list (ConstructId * Construct).

Fixpoint tryFindChild (id : ConstructId) (s : Scope) : option Construct :=
  match s with
  | [] => None
  | (i, c) :: rest => if i =? id then Some c else tryFindChild id rest
  end.

(** A stack body: a computation that grows and edits the table. *)
Definition Build (A : Type) : Type := Scope -> A * Scope.

Definition ret {A : Type} (a : A) : Build A := fun s => (a, s).

Definition bind {A B : Type} (m : Build A) (k : A -> Build B) : Build B :=
  fun s => let (a, s') := m s in k a s'.

(** [new C(this, id, props)]: register, return the reference.  What the
    library refuses to construct is kept apart, in [Validation]. *)
Definition new_ (id : ConstructId) (c : Construct) : Build ConstructId :=
  fun s => (id, (s ++ [(id, c)])%list).

(** A method call that mutates the referenced construct in place. *)
Definition mutate (id : ConstructId) (f : Construct -> Construct) : Build unit :=
  fun s => (tt, map (fun ic => if fst ic =? id then (fst ic, f (snd ic)) else ic) s).

(** [xs.forEach(f)] *)
Fixpoint forEach {A : Type} (xs : list A) (f : A -> Build unit) : Build unit :=
  match xs with
  | [] => ret tt
  | x :: rest => bind (f x) (fun _ => forEach rest f)
  end.

Definition addAlarmAction (alarm : ConstructId) (a : AlarmAction) : Build unit :=
  mutate alarm (fun c =>
    match c with
    | Alarm p al ok => Alarm p (al ++ [a])%list ok
    | other => other
    end).

Definition addOkAction (alarm : ConstructId) (a : AlarmAction) : Build unit :=
  mutate alarm (fun c =>
    match c with
    | Alarm p al ok => Alarm p al (ok ++ [a])%list
    | other => other
    end).

(** Deploy-time attributes of a referenced construct. *)
Definition queueArn (q : ConstructId) : Str := Attr q "queueArn".
Definition queueUrl (q : ConstructId) : Str := Attr q "queueUrl".
Definition keyArn (k : ConstructId) : Str := Attr k "keyArn".
Definition roleArn (r : ConstructId) : Str := Attr r "roleArn".
Definition topicArn (t : ConstructId) : Str := Attr t "topicArn".
Definition restApiId (a : ConstructId) : Str := Attr a "restApiId".
Definition url (a : ConstructId) : Str := Attr a "url".
Definition deploymentStage (a : ConstructId) : Str := Attr a "deploymentStage".

(** Queue metrics: [q.metricXxx(props)] *)
Definition metricApproximateAgeOfOldestMessage
    (q : ConstructId) (period : option Duration) : Metric :=
  {| metricName := "ApproximateAgeOfOldestMessage"; metricOf := q;
     period := period; statistic := None |}.

Definition metricApproximateNumberOfMessagesVisible (q : ConstructId) : Metric :=
  {| metricName := "ApproximateNumberOfMessagesVisible"; metricOf := q;
     period := None; statistic := None |}.

Definition metricServerError
    (a : ConstructId) (period : option Duration) (statistic : option string) : Metric :=
  {| metricName := "5XXError"; metricOf := a;
     period := period; statistic := statistic |}.

Definition metricLatency
    (a : ConstructId) (period : option Duration) (statistic : option string) : Metric :=
  {| metricName := "Latency"; metricOf := a;
     period := period; statistic := statistic |}.

End Cdk.

Declare Scope build_scope.
Delimit Scope build_scope with build.
Notation "'let*' x ':=' c 'in' k" := (Cdk.bind c (fun x => k))
(at level 10, x name, c at level 100, k at level 200) : build_scope.
Notation "c ';;' k" := (Cdk.bind c (fun _ => k))
(at level 100, k at level 200, right associativity) : build_scope.

(* ------------------------------------------------------------------ *)
(** ** [lib/sqs-stack.ts] *)

Module SqsStack.
Import Cdk.

Record QueueConfig := {
  visibilityTimeoutSeconds : option Z;
  maxReceiveCount : option Z;
}.

(** [interface SQSStackProps extends StackProps] *)
Record SQSStackProps := {
  stackProps : StackProps;
  environment : string;
  projectName : string;
  enableEncryption : option bool;
  enableCostOptimization : option bool;
  watchTowerTopicArn : option string;
  orderQueueConfig : option QueueConfig;
  resultQueueConfig : option QueueConfig;
}.

(** The public fields of [class SQSStack]. *)
Record Fields := {
  orderQueue : ConstructId;
  orderDLQ : ConstructId;
  resultQueue : ConstructId;
  resultDLQ : ConstructId;
  queueEncryptionKey : ConstructId;
  webhookRole : ConstructId;
  workerRole : ConstructId;
  feedbackRole : ConstructId;
  queueAlertTopic : ConstructId;
  orderQueueAlarms : list ConstructId;
  resultQueueAlarms : list ConstructId;
}.

Definition lambdaPrincipal : string := "lambda.amazonaws.com".
Definition basicExecution : string := "service-role/AWSLambdaBasicExecutionRole".

(** The body of [constructor(scope, id, props)], statement by statement. *)
Definition constructor (props : SQSStackProps) : Build Fields :=
  let environment := environment props in
  let projectName := projectName props in
  let enableEncryption := enableEncryption props ?? true in
  let orderQueueConfig := orderQueueConfig props in
  let resultQueueConfig := resultQueueConfig props in
  let this_account := Stack_account (stackProps props) in
  (* KMS key for SQS queues *)
  (let* queueEncryptionKey :=
     new_ "QueueEncryptionKey" (Key {|
       key_description := projectName ++ "-" ++ environment ++ " SQS encryption key";
       enableKeyRotation := true |}) in
   (* DLQs first *)
   let* orderDLQ :=
     new_ "OrderDLQ" (Queue {|
       queueName := projectName ++ "-" ++ environment ++ "-order-dlq";
       visibilityTimeout := None;
       retentionPeriod := Some (Duration.days 7);
       receiveMessageWaitTime := None;
       deadLetterQueue := None;
       encryptionMasterKey :=
         if enableEncryption then Some queueEncryptionKey else None |}) in
   let* resultDLQ :=
     new_ "ResultDLQ" (Queue {|
       queueName := projectName ++ "-" ++ environment ++ "-result-dlq";
       visibilityTimeout := None;
       retentionPeriod := Some (Duration.days 7);
       receiveMessageWaitTime := None;
       deadLetterQueue := None;
       encryptionMasterKey :=
         if enableEncryption then Some queueEncryptionKey else None |}) in
   (* Main queues *)
   let orderVisibility :=
     Duration.seconds
       (JS.chain orderQueueConfig visibilityTimeoutSeconds ?? 300%Z) in
   let orderMaxReceive := JS.chain orderQueueConfig maxReceiveCount ?? 3%Z in
   let* orderQueue :=
     new_ "OrderQueue" (Queue {|
       queueName := projectName ++ "-" ++ environment ++ "-order";
       visibilityTimeout := Some orderVisibility;
       retentionPeriod := Some (Duration.days 14);
       receiveMessageWaitTime := Some (Duration.seconds 6);
       deadLetterQueue := Some {|
         queue := orderDLQ;
         Cdk.maxReceiveCount := orderMaxReceive |};
       encryptionMasterKey :=
         if enableEncryption then Some queueEncryptionKey else None |}) in
   let resultVisibility :=
     Duration.seconds
       (JS.chain resultQueueConfig visibilityTimeoutSeconds ?? 180%Z) in
   let resultMaxReceive := JS.chain resultQueueConfig maxReceiveCount ?? 3%Z in
   let* resultQueue :=
     new_ "ResultQueue" (Queue {|
       queueName := projectName ++ "-" ++ environment ++ "-result";
       visibilityTimeout := Some resultVisibility;
       retentionPeriod := Some (Duration.days 7);
       receiveMessageWaitTime := Some (Duration.seconds 6);
       deadLetterQueue := Some {|
         queue := resultDLQ;
         Cdk.maxReceiveCount := resultMaxReceive |};
       encryptionMasterKey :=
         if enableEncryption then Some queueEncryptionKey else None |}) in
   (* IAM roles *)
   let* webhookRole :=
     new_ "WebhookLambdaRole" (Role {|
       roleName := projectName ++ "-" ++ environment ++ "-webhook-role";
       assumedBy := lambdaPrincipal;
       managedPolicies := [basicExecution];
       inlinePolicies := [
         ("OrderQueueProducer", [
            {| effect := ALLOW;
               actions := ["sqs:SendMessage"; "sqs:GetQueueAttributes";
                           "sqs:GetQueueUrl"];
               resources := [queueArn orderQueue];
               conditions :=
                 [("StringEquals", [("aws:SourceAccount", this_account)])] |};
            {| effect := ALLOW;
               actions := ["kms:Decrypt"; "kms:GenerateDataKey"];
               resources := [keyArn queueEncryptionKey];
               conditions := [] |} ]) ] |}) in
   let* workerRole :=
     new_ "WorkerLambdaRole" (Role {|
       roleName := projectName ++ "-" ++ environment ++ "-worker-role";
       assumedBy := lambdaPrincipal;
       managedPolicies := [basicExecution];
       inlinePolicies := [
         ("DualQueueWorkerAccess", [
            {| effect := ALLOW;
               actions := ["sqs:ReceiveMessage"; "sqs:DeleteMessage";
                           "sqs:ChangeMessageVisibility";
                           "sqs:GetQueueAttributes"];
               resources := [queueArn orderQueue];
               conditions := [] |};
            {| effect := ALLOW;
               actions := ["sqs:SendMessage"; "sqs:GetQueueAttributes"];
               resources := [queueArn resultQueue];
               conditions := [] |};
            {| effect := ALLOW;
               actions := ["kms:Decrypt"; "kms:GenerateDataKey"];
               resources := [keyArn queueEncryptionKey];
               conditions := [] |} ]) ] |}) in
   let* feedbackRole :=
     new_ "FeedbackLambdaRole" (Role {|
       roleName := projectName ++ "-" ++ environment ++ "-feedback-role";
       assumedBy := lambdaPrincipal;
       managedPolicies := [basicExecution];
       inlinePolicies := [
         ("FeedbackDualQueueAccess", [
            {| effect := ALLOW;
               actions := ["sqs:ReceiveMessage"; "sqs:DeleteMessage";
                           "sqs:ChangeMessageVisibility";
                           "sqs:GetQueueAttributes"];
               resources := [queueArn resultQueue];
               conditions := [] |};
            {| effect := ALLOW;
               actions := ["sqs:SendMessage"; "sqs:GetQueueAttributes"];
               resources := [queueArn orderQueue];
               conditions := [] |};
            {| effect := ALLOW;
               actions := ["kms:Decrypt"; "kms:GenerateDataKey"];
               resources := [keyArn queueEncryptionKey];
               conditions := [] |} ]) ] |}) in
   (* Monitoring: alarms *)
   let stackName := projectName ++ "-" ++ environment in
   let* orderQueueAgeAlarm :=
     new_ "OrderQueueAgeAlarm" (Alarm {|
       alarmName := stackName ++ "-order-message-age";
       alarmDescription := "Order messages aging in queue";
       metric := metricApproximateAgeOfOldestMessage orderQueue
                   (Some (Duration.minutes 5));
       threshold := 900;
       evaluationPeriods := 2;
       treatMissingData := None |} [] []) in
   let* resultQueueAgeAlarm :=
     new_ "ResultQueueAgeAlarm" (Alarm {|
       alarmName := stackName ++ "-result-message-age";
       alarmDescription := "Result messages aging in queue";
       metric := metricApproximateAgeOfOldestMessage resultQueue
                   (Some (Duration.minutes 3));
       threshold := 600;
       evaluationPeriods := 2;
       treatMissingData := None |} [] []) in
   let* orderDLQAlarm :=
     new_ "OrderDLQAlarm" (Alarm {|
       alarmName := stackName ++ "-order-dlq-messages";
       alarmDescription := "Failed orders in Dead Letter Queue";
       metric := metricApproximateNumberOfMessagesVisible orderDLQ;
       threshold := 1;
       evaluationPeriods := 1;
       treatMissingData := Some NOT_BREACHING |} [] []) in
   let* resultDLQAlarm :=
     new_ "ResultDLQAlarm" (Alarm {|
       alarmName := stackName ++ "-result-dlq-messages";
       alarmDescription := "Failed results in Dead Letter Queue";
       metric := metricApproximateNumberOfMessagesVisible resultDLQ;
       threshold := 1;
       evaluationPeriods := 1;
       treatMissingData := None |} [] []) in
   let orderQueueAlarms := [orderQueueAgeAlarm; orderDLQAlarm] in
   let resultQueueAlarms := [resultQueueAgeAlarm; resultDLQAlarm] in
   (* SNS Topic and alarm actions *)
   let* queueAlertTopic :=
     new_ "QueueAlertTopic" (Topic {|
       topicName := stackName ++ "-queue-alerts";
       displayName := "SQS Alerts for Watch Tower";
       masterKey := Some queueEncryptionKey |}) in
   forEach [orderQueueAgeAlarm; resultQueueAgeAlarm; orderDLQAlarm; resultDLQAlarm]
     (fun alarm =>
        addAlarmAction alarm (SnsAction queueAlertTopic) ;;
        addOkAction alarm (SnsAction queueAlertTopic)) ;;
   (* SSM exports *)
   let* _ :=
     new_ "OrderQueueUrl" (StringParameter {|
       parameterName := "/automation/" ++ environment ++ "/queues/order/url";
       stringValue := queueUrl orderQueue;
       parameter_description :=
         "Order Queue URL for task distribution and requeue operations" |}) in
   let* _ :=
     new_ "OrderQueueArn" (StringParameter {|
       parameterName := "/automation/" ++ environment ++ "/queues/order/arn";
       stringValue := queueArn orderQueue;
       parameter_description :=
         "Order Queue ARN for IAM permissions and monitoring" |}) in
   let* _ :=
     new_ "ResultQueueUrl" (StringParameter {|
       parameterName := "/automation/" ++ environment ++ "/queues/result/url";
       stringValue := queueUrl resultQueue;
       parameter_description :=
         "Result Queue URL for processing results and feedback" |}) in
   let* _ :=
     new_ "ResultQueueArn" (StringParameter {|
       parameterName := "/automation/" ++ environment ++ "/queues/result/arn";
       stringValue := queueArn resultQueue;
       parameter_description :=
         "Result Queue ARN for IAM permissions and monitoring" |}) in
   let* _ :=
     new_ "QueueConfiguration" (StringParameter {|
       parameterName := "/automation/" ++ environment ++ "/queues/config";
       stringValue := Lit (JS.stringify (JS.JObj
         (JS.MCons "orderQueue" (JS.JObj
            (JS.MCons "visibilityTimeout"
               (JS.JNum (Duration.toSeconds orderVisibility))
            (JS.MCons "maxReceiveCount" (JS.JNum orderMaxReceive) JS.MNil)))
         (JS.MCons "resultQueue" (JS.JObj
            (JS.MCons "visibilityTimeout"
               (JS.JNum (Duration.toSeconds resultVisibility))
            (JS.MCons "maxReceiveCount" (JS.JNum resultMaxReceive) JS.MNil)))
          JS.MNil))));
       parameter_description :=
         "Queue configuration parameters for Lambda integration" |}) in
   let* _ :=
     new_ "WebhookRoleArn" (StringParameter {|
       parameterName := "/automation/" ++ environment ++ "/roles/webhook/arn";
       stringValue := roleArn webhookRole;
       parameter_description := "Webhook Lambda IAM Role ARN" |}) in
   let* _ :=
     new_ "WorkerRoleArn" (StringParameter {|
       parameterName := "/automation/" ++ environment ++ "/roles/worker/arn";
       stringValue := roleArn workerRole;
       parameter_description := "Worker Lambda IAM Role ARN" |}) in
   let* _ :=
     new_ "FeedbackRoleArn" (StringParameter {|
       parameterName := "/automation/" ++ environment ++ "/roles/feedback/arn";
       stringValue := roleArn feedbackRole;
       parameter_description := "Feedback Lambda IAM Role ARN" |}) in
   let* _ :=
     new_ "QueueAlertTopicArn" (StringParameter {|
       parameterName :=
         "/automation/" ++ environment ++ "/monitoring/queue-alerts/topic-arn";
       stringValue := topicArn queueAlertTopic;
       parameter_description :=
         "SNS Topic ARN for queue alerts integration with Watch Tower" |}) in
   ret {|
     orderQueue := orderQueue;
     orderDLQ := orderDLQ;
     resultQueue := resultQueue;
     resultDLQ := resultDLQ;
     queueEncryptionKey := queueEncryptionKey;
     webhookRole := webhookRole;
     workerRole := workerRole;
     feedbackRole := feedbackRole;
     queueAlertTopic := queueAlertTopic;
     orderQueueAlarms := orderQueueAlarms;
     resultQueueAlarms := resultQueueAlarms |})%build.

(** [new SQSStack(scope, id, props)]: the fields and the construct table
    the body leaves behind, starting from an empty stack. *)
Record SQSStack := {
  id : ConstructId;
  props_of : SQSStackProps;
  fields : Fields;
  node : Scope;
}.

Definition new_SQSStack (id : ConstructId) (props : SQSStackProps) : SQSStack :=
  let built := constructor props [] in
  {| id := id; props_of := props; fields := fst built; node := snd built |}.

End SqsStack.

(* ------------------------------------------------------------------ *)
(** ** [lib/api-gateway-stack.ts] *)

Module ApiGateway.
Import Cdk.

Record Throttling := {
  rateLimit : option Z;
  burstLimit : option Z;
}.

(** [interface ApiGatewayStackProps extends StackProps] *)
Record ApiGatewayStackProps := {
  stackProps : StackProps;
  environment : string;
  projectName : string;
  lambdaFunctionName : string;
  certificateArn : string;
  hostedZoneId : string;
  hostedZoneName : string;
  domainName : string;
  basePath : string;
  throttling : option Throttling;
  existingDomainRegionalDomainName : option string;
  existingDomainRegionalHostedZoneId : option string;
  createDnsRecord : option bool;
}.

(** The public fields of [class ApiGatewayStack]. *)
Record Fields := {
  restApi : ConstructId;
  customDomain : ConstructId;
  dnsRecord : option ConstructId;
  apiAlertTopic : ConstructId;
  apiAlarms : list ConstructId;
}.

(** [api.root.addResource(pathPart)] *)
Definition addResource (api : ConstructId) (part : string)
  : Build (ConstructId * string) :=
  (mutate api (fun c =>
     match c with
     | RestApi p rs => RestApi p (rs ++ [{| pathPart := part; methods := [] |}])%list
     | other => other
     end) ;;
   ret (api, part))%build.

(** [resource.addMethod(httpMethod, integration)] *)
Definition addMethod (resource : ConstructId * string)
    (httpMethod : string) (integration : LambdaIntegration) : Build unit :=
  mutate (fst resource) (fun c =>
    match c with
    | RestApi p rs =>
        RestApi p (map (fun r =>
          if pathPart r =? snd resource
          then {| pathPart := pathPart r;
                  methods := (methods r ++ [(httpMethod, integration)])%list |}
          else r) rs)
    | other => other
    end).

(** The body of [constructor(scope, id, props)], statement by statement. *)
Definition constructor (props : ApiGatewayStackProps) : Build Fields :=
  let environment := environment props in
  let projectName := projectName props in
  let lambdaFunctionName := lambdaFunctionName props in
  let certificateArn := certificateArn props in
  let hostedZoneId := hostedZoneId props in
  let hostedZoneName := hostedZoneName props in
  let domainName := domainName props in
  let basePath := basePath props in
  let throttling := throttling props in
  let existingDomainRegionalDomainName := existingDomainRegionalDomainName props in
  let existingDomainRegionalHostedZoneId := existingDomainRegionalHostedZoneId props in
  let createDnsRecord := createDnsRecord props ?? true in
  let stackName := projectName ++ "-" ++ environment in
  let rateLimit := JS.chain throttling rateLimit ?? 10%Z in
  let burstLimit := JS.chain throttling burstLimit ?? 25%Z in
  (* Import the existing Lambda function by name *)
  (let* lambdaFunction :=
     new_ "WebhookLambda" (ImportedFunction lambdaFunctionName) in
   (* Create REST API with regional endpoint *)
   let* restApi :=
     new_ "RestApi" (RestApi {|
       restApiName := projectName ++ "-telegram-bot-api-" ++ environment;
       api_description := "Telegram bot API Gateway for " ++ environment;
       endpointConfiguration := [REGIONAL];
       disableExecuteApiEndpoint := true;
       deployOptions := {|
         stageName := environment;
         throttlingRateLimit := rateLimit;
         throttlingBurstLimit := burstLimit;
         loggingLevel := LOG_INFO;
         dataTraceEnabled := false;
         metricsEnabled := true |} |} []) in
   (* Create the webhook listener resource and POST method *)
   let* listenerResource := addResource restApi "qlibin-assistant-listener" in
   let lambdaIntegration :=
     {| handler := lambdaFunction; proxy := true;
        timeout := Duration.seconds 29 |} in
   addMethod listenerResource "POST" lambdaIntegration ;;
   (* Custom domain: import existing or create new *)
   let* customDomain :=
     match JS.narrow existingDomainRegionalDomainName,
           JS.narrow existingDomainRegionalHostedZoneId with
     | Some aliasTarget, Some aliasZone =>
         (* Import existing custom domain *)
         new_ "CustomDomain" (ImportedDomainName {|
           attr_domainName := domainName;
           domainNameAliasTarget := aliasTarget;
           domainNameAliasHostedZoneId := aliasZone |})
     | _, _ =>
         (* Create new custom domain *)
         let* certificate :=
           new_ "Certificate" (ImportedCertificate certificateArn) in
         new_ "CustomDomain" (DomainName {|
           dn_domainName := domainName;
           certificate := certificate;
           endpointType := REGIONAL;
           securityPolicy := TLS_1_2 |})
     end in
   (* Base path mapping *)
   let* _ :=
     new_ "BasePathMapping" (BasePathMapping {|
       bpm_domainName := customDomain;
       bpm_restApi := restApi;
       Cdk.basePath := basePath;
       stage := deploymentStage restApi |}) in
   (* DNS record: only create if requested and domain was created *)
   let* dnsRecord :=
     if createDnsRecord && negb (JS.truthy existingDomainRegionalDomainName)
     then
       let* hostedZone :=
         new_ "HostedZone" (ImportedHostedZone {|
           Cdk.hostedZoneId := hostedZoneId;
           zoneName := hostedZoneName |}) in
       let* record :=
         new_ "ApiAliasRecord" (ARecord {|
           zone := hostedZone;
           recordName := domainName;
           target := customDomain |}) in
       ret (Some record)
     else ret None in
   (* SNS Topic for API Gateway alerts *)
   let* apiAlertTopic :=
     new_ "ApiAlertTopic" (Topic {|
       topicName := stackName ++ "-api-alerts";
       displayName := "API Gateway Alerts";
       masterKey := None |}) in
   (* CloudWatch Alarms *)
   let* error5xxAlarm :=
     new_ "Api5XXErrorAlarm" (Alarm {|
       alarmName := stackName ++ "-api-5xx-errors";
       alarmDescription := "API Gateway 5XX errors detected";
       metric := metricServerError restApi
                   (Some (Duration.minutes 5)) (Some "Sum");
       threshold := 5;
       evaluationPeriods := 2;
       treatMissingData := Some NOT_BREACHING |} [] []) in
   let* latencyAlarm :=
     new_ "ApiLatencyAlarm" (Alarm {|
       alarmName := stackName ++ "-api-latency";
       alarmDescription := "API Gateway latency exceeds threshold";
       metric := metricLatency restApi
                   (Some (Duration.minutes 5)) (Some "p95");
       threshold := 5000;
       evaluationPeriods := 3;
       treatMissingData := Some NOT_BREACHING |} [] []) in
   let apiAlarms := [error5xxAlarm; latencyAlarm] in
   (* Wire alarms to SNS *)
   forEach [error5xxAlarm; latencyAlarm]
     (fun alarm =>
        addAlarmAction alarm (SnsAction apiAlertTopic) ;;
        addOkAction alarm (SnsAction apiAlertTopic)) ;;
   (* Build API Gateway source ARN for Lambda permissions *)
   let sourceArn := ArnFormat "execute-api" (restApiId restApi) "*" in
   (* SSM Parameter exports *)
   let* _ :=
     new_ "RestApiId" (StringParameter {|
       parameterName := "/automation/" ++ environment ++ "/api-gateway/rest-api-id";
       stringValue := restApiId restApi;
       parameter_description := "REST API ID for API Gateway" |}) in
   let* _ :=
     new_ "RestApiUrl" (StringParameter {|
       parameterName := "/automation/" ++ environment ++ "/api-gateway/rest-api-url";
       stringValue := url restApi;
       parameter_description := "REST API URL (execute-api endpoint)" |}) in
   let* _ :=
     new_ "DomainNameParam" (StringParameter {|
       parameterName := "/automation/" ++ environment ++ "/api-gateway/domain-name";
       stringValue := Lit domainName;
       parameter_description := "Custom domain name for API Gateway" |}) in
   let* _ :=
     new_ "StageName" (StringParameter {|
       parameterName := "/automation/" ++ environment ++ "/api-gateway/stage-name";
       stringValue := Lit environment;
       parameter_description := "API Gateway stage name" |}) in
   let* _ :=
     new_ "SourceArn" (StringParameter {|
       parameterName := "/automation/" ++ environment ++ "/api-gateway/source-arn";
       stringValue := sourceArn;
       parameter_description :=
         "API Gateway source ARN for Lambda resource-based permissions" |}) in
   ret {|
     restApi := restApi;
     customDomain := customDomain;
     dnsRecord := dnsRecord;
     apiAlertTopic := apiAlertTopic;
     apiAlarms := apiAlarms |})%build.

Record ApiGatewayStack := {
  id : ConstructId;
  props_of : ApiGatewayStackProps;
  fields : Fields;
  node : Scope;
}.

Definition new_ApiGatewayStack (id : ConstructId) (props : ApiGatewayStackProps)
  : ApiGatewayStack :=
  let built := constructor props [] in
  {| id := id; props_of := props; fields := fst built; node := snd built |}.

End ApiGateway.

(* ------------------------------------------------------------------ *)
(** ** [bin/tg-assistant-infra.ts] *)

Module Bin.
Import Cdk.

Record EnvConfig := {
  account : string;
  region : string;
  envName : string;
  tags : option (list (string * string));
  certificateArn : option string;
  hostedZoneId : option string;
  hostedZoneName : option string;
  domainName : option string;
  existingDomainRegionalDomainName : option string;
  existingDomainRegionalHostedZoneId : option string;
}.

(** What [app.node.tryGetContext] answers for the four keys read. *)
Record Context := {
  ctx_environment : option string;
  ctx_ENV_NAME : option string;
  ctx_environments : option (list (string * EnvConfig));
  ctx_defaultEnvironment : option string;
}.

Inductive StackInstance :=
| SQS (s : SqsStack.SQSStack)
| API (s : ApiGateway.ApiGatewayStack).

(** [new cdk.App()] and what the script does to it. *)
Record App := {
  stacks : list (ConstructId * StackInstance);
  stackTags : list (ConstructId * (string * string));
  dependencies : list (ConstructId * ConstructId);
}.

Definition new_App : App :=
  {| stacks := []; stackTags := []; dependencies := [] |}.

Inductive Error := mkError (message : string).

(** The script: it can throw, and it edits the app as it goes.  A throw
    keeps the app as it was when the exception left the script. *)
Definition Script (A : Type) : Type := App -> (Error + A) * App.

Definition ret {A : Type} (a : A) : Script A := fun app => (inr a, app).

Definition bind {A B : Type} (m : Script A) (k : A -> Script B) : Script B :=
  fun app =>
    match m app with
    | (inl e, app') => (inl e, app')
    | (inr a, app') => k a app'
    end.

Definition throw {A : Type} (message : string) : Script A :=
  fun app => (inl (mkError message), app).

Definition new_SQSStack (id : ConstructId) (props : SqsStack.SQSStackProps)
  : Script ConstructId :=
  fun app =>
    (inr id,
     {| stacks := (stacks app ++ [(id, SQS (SqsStack.new_SQSStack id props))])%list;
        stackTags := stackTags app;
        dependencies := dependencies app |}).

Definition new_ApiGatewayStack (id : ConstructId)
    (props : ApiGateway.ApiGatewayStackProps) : Script ConstructId :=
  fun app =>
    (inr id,
     {| stacks :=
          (stacks app ++ [(id, API (ApiGateway.new_ApiGatewayStack id props))])%list;
        stackTags := stackTags app;
        dependencies := dependencies app |}).

(** [cdk.Tags.of(stack).add(key, value)] *)
Definition Tags_add (stack : ConstructId) (key value : string) : Script unit :=
  fun app =>
    (inr tt,
     {| stacks := stacks app;
        stackTags := (stackTags app ++ [(stack, (key, value))])%list;
        dependencies := dependencies app |}).

(** [stack.addDependency(target)] *)
Definition addDependency (stack target : ConstructId) : Script unit :=
  fun app =>
    (inr tt,
     {| stacks := stacks app;
        stackTags := stackTags app;
        dependencies := (dependencies app ++ [(stack, target)])%list |}).

(** [Object.keys(o)], for a record whose keys are not spelled like array
    indices (those would come first). *)
Definition Object_keys {A : Type} (o : list (string * A)) : list string :=
  map fst o.

(** The names every object answers to without having an entry of its own:
    the members of [Object.prototype]. *)
Definition inherited : list string :=
  ["constructor"; "__defineGetter__"; "__defineSetter__"; "hasOwnProperty";
   "__lookupGetter__"; "__lookupSetter__"; "isPrototypeOf";
   "propertyIsEnumerable"; "toString"; "valueOf"; "__proto__";
   "toLocaleString"].

(** [o[key]] on a record read from the context, for a [key] that is not
    [inherited]: the record's own entry, if any. *)
Fixpoint get {A : Type} (o : list (string * A)) (key : string) : option A :=
  match o with
  | [] => None
  | (k, v) :: rest => if k =? key then Some v else get rest key
  end.

End Bin.

Declare Scope script_scope.
Delimit Scope script_scope with script.
Notation "'let*' x ':=' c 'in' k" := (Bin.bind c (fun x => k))
(at level 10, x name, c at level 100, k at level 200) : script_scope.
Notation "c ';;' k" := (Bin.bind c (fun _ => k))
(at level 100, k at level 200, right associativity) : script_scope.

Module Orchestrator.
Import Cdk Bin.

Definition projectName : string := "tg-assistant".

(** Lines 57-101: the two stacks, their tags and their ordering. *)
Definition instantiate (envCfg : EnvConfig) : Script unit :=
  (let* sqsStack :=
     new_SQSStack ("DualQueueMessageStack-" ++ envName envCfg) {|
       SqsStack.stackProps := {|
         env := Some {| Cdk.account := Some (account envCfg);
                        Cdk.region := Some (region envCfg) |};
         description :=
           Some ("Dual SQS queues for TG Assistant (" ++ envName envCfg ++ ")");
         Cdk.tags := Some (tags envCfg ?? []) |};
       SqsStack.environment := envName envCfg;
       SqsStack.projectName := projectName;
       SqsStack.enableEncryption := None;
       SqsStack.enableCostOptimization := None;
       SqsStack.watchTowerTopicArn := None;
       SqsStack.orderQueueConfig := None;
       SqsStack.resultQueueConfig := None |} in
   Tags_add sqsStack "app" "telegram-webhook" ;;
   Tags_add sqsStack "env" (envName envCfg) ;;
   (* API Gateway Stack (only if configuration is available) *)
   match JS.narrow (certificateArn envCfg), JS.narrow (hostedZoneId envCfg),
         JS.narrow (hostedZoneName envCfg), JS.narrow (domainName envCfg) with
   | Some certificateArn, Some hostedZoneId, Some hostedZoneName, Some domainName =>
       let* apiGatewayStack :=
         new_ApiGatewayStack ("ApiGatewayStack-" ++ envName envCfg) {|
           ApiGateway.stackProps := {|
             env := Some {| Cdk.account := Some (account envCfg);
                            Cdk.region := Some (region envCfg) |};
             description :=
               Some ("API Gateway for TG Assistant (" ++ envName envCfg ++ ")");
             Cdk.tags := Some (tags envCfg ?? []) |};
           ApiGateway.environment := envName envCfg;
           ApiGateway.projectName := projectName;
           ApiGateway.lambdaFunctionName :=
             "telegram-webhook-lambda-" ++ envName envCfg;
           ApiGateway.certificateArn := certificateArn;
           ApiGateway.hostedZoneId := hostedZoneId;
           ApiGateway.hostedZoneName := hostedZoneName;
           ApiGateway.domainName := domainName;
           ApiGateway.basePath := envName envCfg;
           ApiGateway.throttling := None;
           ApiGateway.existingDomainRegionalDomainName :=
             existingDomainRegionalDomainName envCfg;
           ApiGateway.existingDomainRegionalHostedZoneId :=
             existingDomainRegionalHostedZoneId envCfg;
           ApiGateway.createDnsRecord := Some false |} in
       addDependency apiGatewayStack sqsStack ;;
       Tags_add apiGatewayStack "app" "telegram-webhook" ;;
       Tags_add apiGatewayStack "env" (envName envCfg)
   | _, _, _, _ => ret tt
   end)%script.

Definition accountMismatch
    (providedAccountId : string) (envCfg : EnvConfig) (resolvedEnvName : string)
  : string :=
  "AWS account mismatch: AWS_ACCOUNT_ID=" ++ providedAccountId
    ++ " does not match CDK context account=" ++ account envCfg
    ++ " for environment '" ++ resolvedEnvName ++ "'.".

(** Lines 22-47: which environment the run is for. *)
Definition resolveEnvironment (ctx : Context) : Script (string * EnvConfig) :=
  let environmentName :=
    JS.nullish_opt (JS.nullish_opt (ctx_environment ctx) (ctx_ENV_NAME ctx)) None in
  let defaultEnvironment := ctx_defaultEnvironment ctx in
  match ctx_environments ctx with
  | None =>
      throw "CDK context missing. Ensure cdk.json has context.environments configured."
  | Some environments =>
      if (length (Object_keys environments) =? 0)%nat
      then
        throw "CDK context missing. Ensure cdk.json has context.environments configured."
      else
        let resolvedEnvName :=
          JS.nullish_opt environmentName defaultEnvironment ?? "dev" in
        match get environments resolvedEnvName with
        | None =>
            throw ("Unknown environment '" ++ resolvedEnvName ++ "'. Available: "
                     ++ JS.join ", " (Object_keys environments))
        | Some envCfg => ret (resolvedEnvName, envCfg)
        end
  end.

(** Lines 49-55: optional account sanity check if [AWS_ACCOUNT_ID] is
    provided in the environment. *)
Definition checkAccount (providedAccountId : option string)
    (resolvedEnvName : string) (envCfg : EnvConfig) : Script unit :=
  match JS.narrow providedAccountId with
  | Some provided =>
      if negb (provided =? account envCfg)
      then throw (accountMismatch provided envCfg resolvedEnvName)
      else ret tt
  | None => ret tt
  end.

(** The whole script: [ctx] is the CDK context and [AWS_ACCOUNT_ID] is
    [process.env.AWS_ACCOUNT_ID]. *)
Definition main (ctx : Context) (AWS_ACCOUNT_ID : option string) : Script unit :=
  (let* target := resolveEnvironment ctx in
   let resolvedEnvName := fst target in
   let envCfg := snd target in
   checkAccount AWS_ACCOUNT_ID resolvedEnvName envCfg ;;
   instantiate envCfg)%script.

(** One run of the script, from [new cdk.App()]. *)
Definition run (ctx : Context) (AWS_ACCOUNT_ID : option string)
  : (Error + unit) * App :=
  main ctx AWS_ACCOUNT_ID new_App.

End Orchestrator.

(* ------------------------------------------------------------------ *)
(** ** Reading a construct table, as the repository's tests read a template *)

Module Template.
Import Cdk.

(** The CloudFormation type a construct provisions; the [fromXxx]
    references provision nothing. *)
Definition cfnType (c : Construct) : option string :=
  match c with
  | Key _ => Some "AWS::KMS::Key"
  | Queue _ => Some "AWS::SQS::Queue"
  | Role _ => Some "AWS::IAM::Role"
  | Alarm _ _ _ => Some "AWS::CloudWatch::Alarm"
  | Topic _ => Some "AWS::SNS::Topic"
  | StringParameter _ => Some "AWS::SSM::Parameter"
  | RestApi _ _ => Some "AWS::ApiGateway::RestApi"
  | DomainName _ => Some "AWS::ApiGateway::DomainName"
  | BasePathMapping _ => Some "AWS::ApiGateway::BasePathMapping"
  | ARecord _ => Some "AWS::Route53::RecordSet"
  | ImportedFunction _ => None
  | ImportedCertificate _ => None
  | ImportedDomainName _ => None
  | ImportedHostedZone _ => None
  end.

Definition hasType (type : string) (c : Construct) : bool :=
  match cfnType c with
  | Some t => t =? type
  | None => false
  end.

Definition resourcesOfType (type : string) (s : Scope) : Scope :=
  filter (fun ic => hasType type (snd ic)) s.

(** [template.resourceCountIs(type, n)] compares with this count.  It
    counts what the sources construct themselves: a type [cfnType] never
    gives counts 0. *)
Definition resourceCount (type : string) (s : Scope) : nat :=
  length (resourcesOfType type s).

(** The explicit physical name of a queue, role, topic, alarm or REST API. *)
Definition physicalName (c : Construct) : option string :=
  match c with
  | Queue p => Some (queueName p)
  | Role p => Some (roleName p)
  | Topic p => Some (topicName p)
  | Alarm p _ _ => Some (alarmName p)
  | RestApi p _ => Some (restApiName p)
  | _ => None
  end.

Definition queueAt (s : Scope) (id : ConstructId) : option QueueProps :=
  match tryFindChild id s with
  | Some (Queue p) => Some p
  | _ => None
  end.

Definition topicAt (s : Scope) (id : ConstructId) : option TopicProps :=
  match tryFindChild id s with
  | Some (Topic p) => Some p
  | _ => None
  end.

Definition keyAt (s : Scope) (id : ConstructId) : option KeyProps :=
  match tryFindChild id s with
  | Some (Key p) => Some p
  | _ => None
  end.

(** All statements of all inline policies of the role registered as [id]. *)
Definition statementsOf (s : Scope) (id : ConstructId) : list PolicyStatement :=
  match tryFindChild id s with
  | Some (Role p) => flat_map snd (inlinePolicies p)
  | _ => []
  end.

Definition grants (action : string) (st : PolicyStatement) : bool :=
  existsb (fun a => a =? action) (actions st).

Definition grantsKms (st : PolicyStatement) : bool :=
  grants "kms:Decrypt" st || grants "kms:GenerateDataKey" st.

(** Metric, period, threshold, evaluation periods and missing-data
    treatment of an alarm. *)
Definition alarmSettings (c : Construct)
  : option (Metric * Z * Z * option TreatMissingData) :=
  match c with
  | Alarm p _ _ =>
      Some (metric p, threshold p, evaluationPeriods p, treatMissingData p)
  | _ => None
  end.

(** What an alarm notifies on entering ALARM and on returning to OK. *)
Definition alarmWiring (c : Construct)
  : option (list AlarmAction * list AlarmAction) :=
  match c with
  | Alarm _ al ok => Some (al, ok)
  | _ => None
  end.

(** Path and value of every exported parameter, in creation order. *)
Definition parameters (s : Scope) : list (string * Str) :=
  flat_map (fun ic =>
    match snd ic with
    | StringParameter p => [(parameterName p, stringValue p)]
    | _ => []
    end) s.

(** Every explicit physical name in the table, in creation order. *)
Definition names (s : Scope) : list string :=
  flat_map (fun ic =>
    match physicalName (snd ic) with
    | Some n => [n]
    | None => []
    end) s.

End Template.

(* ------------------------------------------------------------------ *)
(** ** The published contracts, as the specification words them *)

Module Contract.
Import Cdk.

(** [{project}-{environment}-{purpose}] *)
Definition conventionalName (project environment purpose : string) : string :=
  project ++ "-" ++ environment ++ "-" ++ purpose.

(** A name follows the convention when some non-empty purpose completes it. *)
Definition followsConvention (project environment name : string) : Prop :=
  exists purpose,
    purpose <> EmptyString /\ name = conventionalName project environment purpose.

(** [s] has [sub] somewhere inside. *)
Definition contains (s sub : string) : Prop :=
  exists before after, s = before ++ sub ++ after.

(** In the specification's words: a domain configuration is complete when
    it has certificate-or-import data, hosted-zone data and a domain name. *)
Definition completeDomainConfiguration (c : Bin.EnvConfig) : bool :=
  (JS.truthy (Bin.certificateArn c)
   || (JS.truthy (Bin.existingDomainRegionalDomainName c)
       && JS.truthy (Bin.existingDomainRegionalHostedZoneId c)))
  && (JS.truthy (Bin.hostedZoneId c) && JS.truthy (Bin.hostedZoneName c))
  && JS.truthy (Bin.domainName c).

Definition isSqsStack (i : Bin.StackInstance) : bool :=
  match i with
  | Bin.SQS _ => true
  | Bin.API _ => false
  end.

Definition isApiGatewayStack (i : Bin.StackInstance) : bool :=
  match i with
  | Bin.SQS _ => false
  | Bin.API _ => true
  end.

(** What the script's guard asks of a configuration before it builds the
    gateway: certificate, hosted-zone id, hosted-zone name and domain name,
    each set and non-empty. *)
Definition gatewayConfigured (c : Bin.EnvConfig) : bool :=
  JS.truthy (Bin.certificateArn c) && JS.truthy (Bin.hostedZoneId c)
  && JS.truthy (Bin.hostedZoneName c) && JS.truthy (Bin.domainName c).

(** A stack sits in the app under [DualQueueMessageStack-{environment}] or
    [ApiGatewayStack-{environment}], by its kind and its own environment. *)
Definition conventionalStackId (entry : ConstructId * Bin.StackInstance) : Prop :=
  match snd entry with
  | Bin.SQS s =>
      fst entry = "DualQueueMessageStack-" ++ SqsStack.environment (SqsStack.props_of s)
      /\ SqsStack.id s = fst entry
  | Bin.API s =>
      fst entry = "ApiGatewayStack-" ++ ApiGateway.environment (ApiGateway.props_of s)
      /\ ApiGateway.id s = fst entry
  end.

(** How many stacks of a kind a run left in the app. *)
Definition stackCount (kind : Bin.StackInstance -> bool) (app : Bin.App) : nat :=
  length (filter (fun s => kind (snd s)) (Bin.stacks app)).

(** No construct of the table is registered under one of [ids]. *)
Definition untouched (ids : list ConstructId) (s : Scope) : Prop :=
  Forall (fun ic => ~ In (fst ic) ids) s.

(** A stack body that mutates only [ids] ignores what the table already
    holds: run after [before], it leaves [before] as it was and adds what it
    adds without it. *)
Definition framed {A : Type} (ids : list ConstructId) (m : Build A) : Prop :=
  forall before s, untouched ids before ->
    m (before ++ s)%list = (fst (m s), (before ++ snd (m s))%list).

End Contract.

Module MessagingContract.
Import Cdk SqsStack Template.

(** The four queues of a messaging stack. *)
Definition queuesOf (stack : SQSStack) : list ConstructId :=
  [orderQueue (fields stack); resultQueue (fields stack);
   orderDLQ (fields stack); resultDLQ (fields stack)].

(** Least privilege for one role: every statement stays inside [allowed]
    and names no wildcard, and exactly one statement grants the two key
    actions, on the shared key alone. *)
Definition leastPrivilege
    (stack : SQSStack) (allowed : list Str) (role : ConstructId) : Prop :=
  Forall (fun st =>
            incl (resources st) allowed
            /\ existsb is_wildcard (resources st) = false)
         (statementsOf (node stack) role)
  /\ exists kms,
       filter grantsKms (statementsOf (node stack) role) = [kms]
       /\ actions kms = ["kms:Decrypt"; "kms:GenerateDataKey"]
       /\ resources kms = [keyArn (queueEncryptionKey (fields stack))].

(** The queue registered as [q] names [key] as its encryption master key. *)
Definition encryptedWith (stack : SQSStack) (key q : ConstructId) : Prop :=
  exists p, queueAt (node stack) q = Some p /\ encryptionMasterKey p = Some key.

(** The queue registered as [q] names no encryption master key. *)
Definition unencrypted (stack : SQSStack) (q : ConstructId) : Prop :=
  exists p, queueAt (node stack) q = Some p /\ encryptionMasterKey p = None.

Definition allQueuesEncrypted (stack : SQSStack) : Prop :=
  Forall (encryptedWith stack (queueEncryptionKey (fields stack))) (queuesOf stack).

(** "The override if supplied, else the default". *)
Definition overrideOr
    (config : option QueueConfig) (field : QueueConfig -> option Z) (default : Z) : Z :=
  match config with
  | Some c =>
      match field c with
      | Some v => v
      | None => default
      end
  | None => default
  end.

(** The same props with another [enableEncryption]. *)
Definition withEnableEncryption (flag : option bool) (p : SQSStackProps)
  : SQSStackProps :=
  {| stackProps := stackProps p;
     environment := environment p;
     projectName := projectName p;
     enableEncryption := flag;
     enableCostOptimization := enableCostOptimization p;
     watchTowerTopicArn := watchTowerTopicArn p;
     orderQueueConfig := orderQueueConfig p;
     resultQueueConfig := resultQueueConfig p |}.

(** The purposes the messaging stack names resources for, in creation order. *)
Definition purposes : list string :=
  ["order-dlq"; "result-dlq"; "order"; "result";
   "webhook-role"; "worker-role"; "feedback-role";
   "order-message-age"; "result-message-age";
   "order-dlq-messages"; "result-dlq-messages";
   "queue-alerts"].

(** The nine registry categories of the messaging stack, in creation order. *)
Definition categories : list string :=
  ["queues/order/url"; "queues/order/arn"; "queues/result/url";
   "queues/result/arn"; "queues/config"; "roles/webhook/arn";
   "roles/worker/arn"; "roles/feedback/arn";
   "monitoring/queue-alerts/topic-arn"].

End MessagingContract.

Module GatewayContract.
Import Cdk ApiGateway Template.

(** The create-record flag, with its default. *)
Definition createRecordFlag (p : ApiGatewayStackProps) : bool :=
  match createDnsRecord p with
  | Some b => b
  | None => true
  end.

(** The purposes the gateway stack names resources for, the REST API apart. *)
Definition purposes : list string :=
  ["api-alerts"; "api-5xx-errors"; "api-latency"].

End GatewayContract.

(* ------------------------------------------------------------------ *)
(** ** Sample configurations *)

Module Samples.
Import Cdk.

Definition baseEnv : option Environment :=
  Some {| account := Some "123456789012"; region := Some "us-east-1" |}.

(** The props of the repository's messaging-stack tests. *)
Definition sqsProps : SqsStack.SQSStackProps := {|
  SqsStack.stackProps :=
    {| env := baseEnv; description := Some "Dual queue stack test"; tags := None |};
  SqsStack.environment := "dev";
  SqsStack.projectName := "tg-assistant";
  SqsStack.enableEncryption := None;
  SqsStack.enableCostOptimization := None;
  SqsStack.watchTowerTopicArn := None;
  SqsStack.orderQueueConfig := None;
  SqsStack.resultQueueConfig := None |}.

(** The same with queue encryption switched off. *)
Definition sqsPropsPlain : SqsStack.SQSStackProps :=
  MessagingContract.withEnableEncryption (Some false) sqsProps.

(** The same with both queues tuned. *)
Definition sqsPropsTuned : SqsStack.SQSStackProps := {|
  SqsStack.stackProps := SqsStack.stackProps sqsProps;
  SqsStack.environment := "prod";
  SqsStack.projectName := "proj";
  SqsStack.enableEncryption := Some true;
  SqsStack.enableCostOptimization := None;
  SqsStack.watchTowerTopicArn := None;
  SqsStack.orderQueueConfig :=
    Some {| SqsStack.visibilityTimeoutSeconds := Some 60%Z;
            SqsStack.maxReceiveCount := None |};
  SqsStack.resultQueueConfig :=
    Some {| SqsStack.visibilityTimeoutSeconds := None;
            SqsStack.maxReceiveCount := Some 5%Z |} |}.

(** The props of the repository's gateway tests, greenfield domain. *)
Definition apiPropsNewDomain : ApiGateway.ApiGatewayStackProps := {|
  ApiGateway.stackProps :=
    {| env := baseEnv; description := Some "API Gateway stack test"; tags := None |};
  ApiGateway.environment := "dev";
  ApiGateway.projectName := "tg-assistant";
  ApiGateway.lambdaFunctionName := "telegram-webhook-lambda-dev";
  ApiGateway.certificateArn :=
    "arn:aws:acm:eu-central-1:123456789012:certificate/test-cert-id";
  ApiGateway.hostedZoneId := "Z0063833342G11THSVYEP";
  ApiGateway.hostedZoneName := "qlibin.com";
  ApiGateway.domainName := "tg.qlibin.com";
  ApiGateway.basePath := "dev";
  ApiGateway.throttling := None;
  ApiGateway.existingDomainRegionalDomainName := None;
  ApiGateway.existingDomainRegionalHostedZoneId := None;
  ApiGateway.createDnsRecord := None |}.

(** The props of the repository's gateway tests, imported domain. *)
Definition apiPropsImported : ApiGateway.ApiGatewayStackProps := {|
  ApiGateway.stackProps := ApiGateway.stackProps apiPropsNewDomain;
  ApiGateway.environment := "dev";
  ApiGateway.projectName := "tg-assistant";
  ApiGateway.lambdaFunctionName := "telegram-webhook-lambda-dev";
  ApiGateway.certificateArn := ApiGateway.certificateArn apiPropsNewDomain;
  ApiGateway.hostedZoneId := "Z0063833342G11THSVYEP";
  ApiGateway.hostedZoneName := "qlibin.com";
  ApiGateway.domainName := "tg.qlibin.com";
  ApiGateway.basePath := "dev";
  ApiGateway.throttling := None;
  ApiGateway.existingDomainRegionalDomainName :=
    Some "d-ekl8ubthta.execute-api.eu-central-1.amazonaws.com";
  ApiGateway.existingDomainRegionalHostedZoneId := Some "Z1U9ULNL0V5AJ3";
  ApiGateway.createDnsRecord := Some false |}.

(** An environment with no gateway data at all. *)
Definition devCfg : Bin.EnvConfig := {|
  Bin.account := "123456789012";
  Bin.region := "eu-central-1";
  Bin.envName := "dev";
  Bin.tags := None;
  Bin.certificateArn := None;
  Bin.hostedZoneId := None;
  Bin.hostedZoneName := None;
  Bin.domainName := None;
  Bin.existingDomainRegionalDomainName := None;
  Bin.existingDomainRegionalHostedZoneId := None |}.

(** An environment with the full gateway data and an imported domain. *)
Definition prodCfg : Bin.EnvConfig := {|
  Bin.account := "210987654321";
  Bin.region := "eu-central-1";
  Bin.envName := "prod";
  Bin.tags := Some [("owner", "qlibin")];
  Bin.certificateArn :=
    Some "arn:aws:acm:eu-central-1:210987654321:certificate/prod-cert-id";
  Bin.hostedZoneId := Some "Z0063833342G11THSVYEP";
  Bin.hostedZoneName := Some "qlibin.com";
  Bin.domainName := Some "tg.qlibin.com";
  Bin.existingDomainRegionalDomainName :=
    Some "d-ekl8ubthta.execute-api.eu-central-1.amazonaws.com";
  Bin.existingDomainRegionalHostedZoneId := Some "Z1U9ULNL0V5AJ3" |}.

(** An environment that imports its domain and carries no certificate. *)
Definition importOnlyCfg : Bin.EnvConfig := {|
  Bin.account := "210987654321";
  Bin.region := "eu-central-1";
  Bin.envName := "test";
  Bin.tags := None;
  Bin.certificateArn := None;
  Bin.hostedZoneId := Some "Z0063833342G11THSVYEP";
  Bin.hostedZoneName := Some "qlibin.com";
  Bin.domainName := Some "tg.qlibin.com";
  Bin.existingDomainRegionalDomainName :=
    Some "d-ekl8ubthta.execute-api.eu-central-1.amazonaws.com";
  Bin.existingDomainRegionalHostedZoneId := Some "Z1U9ULNL0V5AJ3" |}.

Definition context : Bin.Context := {|
  Bin.ctx_environment := None;
  Bin.ctx_ENV_NAME := None;
  Bin.ctx_environments :=
    Some [("dev", devCfg); ("prod", prodCfg); ("test", importOnlyCfg)];
  Bin.ctx_defaultEnvironment := None |}.

Definition contextFor (environment : string) : Bin.Context := {|
  Bin.ctx_environment := Some environment;
  Bin.ctx_ENV_NAME := None;
  Bin.ctx_environments := Bin.ctx_environments context;
  Bin.ctx_defaultEnvironment := Some "dev" |}.

End Samples.

(* ------------------------------------------------------------------ *)
(** ** Reading an app after a run *)

Module Deployment.
Import Cdk Bin.

(** The messaging stacks an app holds, in registration order. *)
Definition sqsStacks (app : App) : list SqsStack.SQSStack :=
  flat_map (fun entry =>
    match snd entry with
    | SQS s => [s]
    | API _ => []
    end) (stacks app).

(** The gateway stacks an app holds, in registration order. *)
Definition apiStacks (app : App) : list ApiGateway.ApiGatewayStack :=
  flat_map (fun entry =>
    match snd entry with
    | SQS _ => []
    | API s => [s]
    end) (stacks app).

(** The tags the script adds to one stack with [Tags.of(stack).add], in the
    order they were added.  The tags a stack is given in its props are
    [propsTagsOf]. *)
Definition tagsOf (app : App) (stack : ConstructId) : list (string * string) :=
  map snd (filter (fun t => fst t =? stack) (stackTags app)).

(** The [tags] a stack was given in its props. *)
Definition propsTagsOf (i : StackInstance) : option (list (string * string)) :=
  match i with
  | SQS s => Cdk.tags (SqsStack.stackProps (SqsStack.props_of s))
  | API s => Cdk.tags (ApiGateway.stackProps (ApiGateway.props_of s))
  end.

(** The environment a stack was built for. *)
Definition environmentOf (i : StackInstance) : string :=
  match i with
  | SQS s => SqsStack.environment (SqsStack.props_of s)
  | API s => ApiGateway.environment (ApiGateway.props_of s)
  end.

(** The first environment name given, in the order context [environment],
    context [ENV_NAME], [defaultEnvironment], and ["dev"] when none is. *)
Definition firstNamed (ctx : Context) : string :=
  match ctx_environment ctx with
  | Some e => e
  | None =>
      match ctx_ENV_NAME ctx with
      | Some e => e
      | None =>
          match ctx_defaultEnvironment ctx with
          | Some d => d
          | None => "dev"
          end
      end
  end.

End Deployment.

(* ------------------------------------------------------------------ *)
(** ** References inside a construct table *)

Module Integrity.
Import Cdk Template.

(** Where in the table a construct id was registered (0 is first). *)
Fixpoint position (id : ConstructId) (s : Scope) : option nat :=
  match s with
  | [] => None
  | (i, _) :: rest =>
      if i =? id then Some 0%nat else option_map S (position id rest)
  end.

(** The constructs a deploy-time string is an attribute of. *)
Fixpoint owners (v : Str) : list ConstructId :=
  match v with
  | Lit _ => []
  | Attr owner _ => [owner]
  | ArnFormat _ resource _ => owners resource
  end.

Definition actionOf (a : AlarmAction) : ConstructId :=
  match a with
  | SnsAction topic => topic
  end.

(** Every construct id a construct refers to: redrive target and key of a
    queue, resources of a role's statements, metric source and notified
    topics of an alarm, key of a topic, source of a parameter value,
    handlers of an API's methods, certificate of a domain, domain, API and
    stage of a path mapping, zone and target of a record. *)
Definition references (c : Construct) : list ConstructId :=
  match c with
  | Key _ => []
  | Queue p =>
      (match deadLetterQueue p with Some d => [queue d] | None => [] end
       ++ match encryptionMasterKey p with Some k => [k] | None => [] end)%list
  | Role p =>
      flat_map (fun policy =>
        flat_map (fun st => flat_map owners (resources st)) (snd policy))
        (inlinePolicies p)
  | Alarm p al ok => (metricOf (metric p) :: map actionOf al ++ map actionOf ok)%list
  | Topic p => match masterKey p with Some k => [k] | None => [] end
  | StringParameter p => owners (stringValue p)
  | RestApi _ rs =>
      flat_map (fun r => map (fun m => handler (snd m)) (methods r)) rs
  | DomainName p => [certificate p]
  | BasePathMapping p => (bpm_domainName p :: bpm_restApi p :: owners (stage p))%list
  | ARecord p => [zone p; target p]
  | ImportedFunction _ => []
  | ImportedCertificate _ => []
  | ImportedDomainName _ => []
  | ImportedHostedZone _ => []
  end.

(** No construct of the table refers to an id the table does not hold. *)
Definition closed (s : Scope) : Prop :=
  Forall (fun ic =>
    Forall (fun r => tryFindChild r s <> None) (references (snd ic))) s.

Definition registered (s : Scope) (id : ConstructId) : bool :=
  match tryFindChild id s with
  | Some _ => true
  | None => false
  end.

(** [closed], decided. *)
Definition closedb (s : Scope) : bool :=
  forallb (fun ic => forallb (registered s) (references (snd ic))) s.

(** A queue that redrives somewhere. *)
Definition redrives (c : Construct) : bool :=
  match c with
  | Queue p =>
      match deadLetterQueue p with
      | Some _ => true
      | None => false
      end
  | _ => false
  end.

Fixpoint Str_eqb (a b : Str) : bool :=
  match a, b with
  | Lit x, Lit y => x =? y
  | Attr o x, Attr p y => (o =? p) && (x =? y)
  | ArnFormat s r n, ArnFormat t q m => (s =? t) && Str_eqb r q && (n =? m)
  | _, _ => false
  end.

(** The actions a role is granted on one resource, over all its statements. *)
Definition actionsOn (s : Scope) (role : ConstructId) (resource : Str) : list string :=
  flat_map (fun st =>
    if existsb (Str_eqb resource) (resources st) then actions st else [])
    (statementsOf s role).

(** Visibility timeout and redrive threshold of the queue registered as [q]. *)
Definition tuningAt (s : Scope) (q : ConstructId)
  : option (option Duration * option Z) :=
  option_map (fun p => (visibilityTimeout p,
                        option_map maxReceiveCount (deadLetterQueue p)))
             (queueAt s q).

(** The configuration snapshot the messaging stack publishes, as the object
    [JSON.stringify] is given. *)
Definition snapshot (orderVisibility orderMaxReceive
                     resultVisibility resultMaxReceive : Z) : JS.json :=
  JS.JObj
    (JS.MCons "orderQueue" (JS.JObj
       (JS.MCons "visibilityTimeout" (JS.JNum orderVisibility)
       (JS.MCons "maxReceiveCount" (JS.JNum orderMaxReceive) JS.MNil)))
    (JS.MCons "resultQueue" (JS.JObj
       (JS.MCons "visibilityTimeout" (JS.JNum resultVisibility)
       (JS.MCons "maxReceiveCount" (JS.JNum resultMaxReceive) JS.MNil)))
     JS.MNil)).

(** The value published under a path, if any. *)
Fixpoint published (path : string) (ps : list (string * Str)) : option Str :=
  match ps with
  | [] => None
  | (p, v) :: rest => if p =? path then Some v else published path rest
  end.

End Integrity.

(* ------------------------------------------------------------------ *)
(** ** What the library refuses to construct *)

Module Validation.
Import Cdk MessagingContract.







End Validation.

Module MoreSamples.
Import Cdk.

(** The messaging test props with every default spelled out and the props
    the constructor never reads filled in. *)
Definition sqsPropsSpelledOut : SqsStack.SQSStackProps := {|
  SqsStack.stackProps :=
    {| env := Some {| account := Some "123456789012"; region := Some "eu-west-1" |};
       description := Some "Another description";
       tags := Some [("team", "assistant")] |};
  SqsStack.environment := "dev";
  SqsStack.projectName := "tg-assistant";
  SqsStack.enableEncryption := Some true;
  SqsStack.enableCostOptimization := Some true;
  SqsStack.watchTowerTopicArn := Some "arn:aws:sns:eu-west-1:123456789012:watch-tower";
  SqsStack.orderQueueConfig :=
    Some {| SqsStack.visibilityTimeoutSeconds := Some 300%Z;
            SqsStack.maxReceiveCount := Some 3%Z |};
  SqsStack.resultQueueConfig :=
    Some {| SqsStack.visibilityTimeoutSeconds := None;
            SqsStack.maxReceiveCount := None |} |}.


(** Gateway props with an alias target and no alias zone. *)
Definition apiPropsTargetOnly : ApiGateway.ApiGatewayStackProps := {|
  ApiGateway.stackProps := ApiGateway.stackProps Samples.apiPropsNewDomain;
  ApiGateway.environment := "dev";
  ApiGateway.projectName := "tg-assistant";
  ApiGateway.lambdaFunctionName := "telegram-webhook-lambda-dev";
  ApiGateway.certificateArn := ApiGateway.certificateArn Samples.apiPropsNewDomain;
  ApiGateway.hostedZoneId := "Z0063833342G11THSVYEP";
  ApiGateway.hostedZoneName := "qlibin.com";
  ApiGateway.domainName := "tg.qlibin.com";
  ApiGateway.basePath := "dev";
  ApiGateway.throttling :=
    Some {| ApiGateway.rateLimit := Some 20%Z; ApiGateway.burstLimit := None |};
  ApiGateway.existingDomainRegionalDomainName :=
    Some "d-ekl8ubthta.execute-api.eu-central-1.amazonaws.com";
  ApiGateway.existingDomainRegionalHostedZoneId := None;
  ApiGateway.createDnsRecord := Some true |}.

(** A context with no environment registry. *)
Definition emptyContext : Bin.Context := {|
  Bin.ctx_environment := Some "dev";
  Bin.ctx_ENV_NAME := None;
  Bin.ctx_environments := Some [];
  Bin.ctx_defaultEnvironment := Some "dev" |}.

End MoreSamples.

(* ------------------------------------------------------------------ *)
(** ** Strings *)

Lemma append_assoc (a b c : string) : (a ++ b) ++ c = a ++ b ++ c.
Proof.
  induction a as [| ch a IH]; simpl.
  - reflexivity.
  - now rewrite IH.
Qed.

Lemma contains_middle (a sub b : string) : Contract.contains (a ++ sub ++ b) sub.
Proof. now exists a, b. Qed.

Lemma contains_after (a s sub : string) :
  Contract.contains s sub -> Contract.contains (a ++ s) sub.
Proof.
  intros [before [after ->]].
  exists (a ++ before), after.
  now rewrite append_assoc.
Qed.

Lemma conventionalName_follows (project environment purpose : string) :
  purpose <> EmptyString ->
  Contract.followsConvention project environment
    (Contract.conventionalName project environment purpose).
Proof. intros Hp. now exists purpose. Qed.


Lemma narrow_truthy (o : option string) :
  JS.truthy o = true -> exists s, o = Some s /\ JS.narrow o = Some s.
Proof.
  destruct o as [s |]; simpl; [| discriminate].
  destruct (s =? EmptyString); simpl; [discriminate |].
  intros _. now exists s.
Qed.

Lemma narrow_falsy (o : option string) :
  JS.truthy o = false -> JS.narrow o = None.
Proof.
  destruct o as [s |]; simpl; [| reflexivity].
  now destruct (s =? EmptyString).
Qed.


(* ------------------------------------------------------------------ *)
(** ** Stack bodies and the table they run on *)

Section Frame.
Import Cdk Contract.

Variable ids : list ConstructId.

Lemma framed_ret {A : Type} (a : A) : framed ids (ret a).
Proof. intros before s _. reflexivity. Qed.

Lemma framed_mutate (id : ConstructId) (f : Construct -> Construct) :
  In id ids -> framed ids (mutate id f).
Proof.
  intros Hin before s Hfresh. unfold mutate. simpl. f_equal.
  rewrite map_app. f_equal.
  induction Hfresh as [| [i c] rest Hi _ IH]; simpl; [reflexivity |].
  rewrite IH. simpl in Hi.
  destruct (String.eqb_spec i id) as [-> | _]; [contradiction | reflexivity].
Qed.

Lemma framed_bind {A B : Type} (m : Build A) (k : A -> Build B) :
  framed ids m -> (forall a, framed ids (k a)) -> framed ids (bind m k).
Proof.
  intros Hm Hk before s Hfresh. unfold bind.
  rewrite (Hm before s Hfresh).
  destruct (m s) as [a s']. simpl.
  apply Hk, Hfresh.
Qed.

(** The reference [new_] returns is the id it was given, so the rest of the
    body only has to be framed for that id. *)
Lemma framed_bind_new {B : Type} (id : ConstructId) (c : Construct)
    (k : ConstructId -> Build B) :
  framed ids (k id) -> framed ids (bind (new_ id c) k).
Proof.
  intros Hk before s Hfresh. unfold bind, new_.
  rewrite <- app_assoc. apply Hk, Hfresh.
Qed.

End Frame.

(* ------------------------------------------------------------------ *)
(** ** The messaging stack *)

Section MessagingStack.
Import Cdk SqsStack Template MessagingContract.

Variable id : ConstructId.
Variable props : SQSStackProps.

(** The references the constructor hands out are the construct ids it
    registered, whatever the props. *)
Lemma SQSStack_fields :
  fields (new_SQSStack id props) = {|
    orderQueue := "OrderQueue";
    orderDLQ := "OrderDLQ";
    resultQueue := "ResultQueue";
    resultDLQ := "ResultDLQ";
    queueEncryptionKey := "QueueEncryptionKey";
    webhookRole := "WebhookLambdaRole";
    workerRole := "WorkerLambdaRole";
    feedbackRole := "FeedbackLambdaRole";
    queueAlertTopic := "QueueAlertTopic";
    orderQueueAlarms := ["OrderQueueAgeAlarm"; "OrderDLQAlarm"];
    resultQueueAlarms := ["ResultQueueAgeAlarm"; "ResultDLQAlarm"] |}.
Proof. reflexivity. Qed.

(** Construct ids are registered once each, in the order of the source. *)
Lemma SQSStack_ids :
  map fst (node (new_SQSStack id props)) =
  ["QueueEncryptionKey"; "OrderDLQ"; "ResultDLQ"; "OrderQueue"; "ResultQueue";
   "WebhookLambdaRole"; "WorkerLambdaRole"; "FeedbackLambdaRole";
   "OrderQueueAgeAlarm"; "ResultQueueAgeAlarm"; "OrderDLQAlarm"; "ResultDLQAlarm";
   "QueueAlertTopic";
   "OrderQueueUrl"; "OrderQueueArn"; "ResultQueueUrl"; "ResultQueueArn";
   "QueueConfiguration"; "WebhookRoleArn"; "WorkerRoleArn"; "FeedbackRoleArn";
   "QueueAlertTopicArn"].
Proof. reflexivity. Qed.

(** One key, with rotation on, whatever the props. *)
Lemma SQSStack_key :
  resourceCount "AWS::KMS::Key" (node (new_SQSStack id props)) = 1%nat
  /\ option_map enableKeyRotation
       (keyAt (node (new_SQSStack id props))
              (queueEncryptionKey (fields (new_SQSStack id props))))
     = Some true.
Proof. split; reflexivity. Qed.

Ltac statements_ok :=
  cbn;
  repeat (apply Forall_cons;
          [split; [intros r Hr; cbn in Hr |- *; tauto | reflexivity] |]);
  apply Forall_nil.

(** C1: whatever the props, every inline statement of the webhook
    (intake-producer), worker and feedback roles lists only resources among
    the intake queue ARN, the result queue ARN and the shared key ARN that
    section 4.3 gives that role (webhook: intake and key; worker and
    feedback: intake, result and key), no statement lists a wildcard, and
    each role has exactly one statement granting kms:Decrypt and
    kms:GenerateDataKey, whose only resource is the shared key. *)
Theorem roles_are_least_privilege :
  let stack := new_SQSStack id props in
  let order := queueArn (orderQueue (fields stack)) in
  let result := queueArn (resultQueue (fields stack)) in
  let key := keyArn (queueEncryptionKey (fields stack)) in
  leastPrivilege stack [order; key] (webhookRole (fields stack))
  /\ leastPrivilege stack [order; result; key] (workerRole (fields stack))
  /\ leastPrivilege stack [result; order; key] (feedbackRole (fields stack))
  /\ resourceCount "AWS::IAM::Role" (node stack) = 3%nat.
Proof.
  cbv zeta. unfold leastPrivilege.
  repeat match goal with |- _ /\ _ => split end.
  all: try statements_ok.
  all: try (eexists; split; [reflexivity | split; reflexivity]).
  reflexivity.
Qed.




End MessagingStack.

Section MessagingInvariants.
Import Cdk SqsStack Template MessagingContract.

Variable id : ConstructId.
Variable props : SQSStackProps.

(** The queue named for each purpose is the one the field refers to. *)
Lemma SQSStack_queue_names :
  let stack := new_SQSStack id props in
  let name purpose :=
    Contract.conventionalName (projectName props) (environment props) purpose in
  map (fun q => option_map queueName (queueAt (node stack) q)) (queuesOf stack)
  = [Some (name "order"); Some (name "result");
     Some (name "order-dlq"); Some (name "result-dlq")].
Proof. reflexivity. Qed.

(** Every explicit name of the messaging stack is
    [{project}-{environment}-{purpose}], purpose by purpose. *)
Lemma SQSStack_names :
  names (node (new_SQSStack id props))
  = map (Contract.conventionalName (projectName props) (environment props)) purposes.
Proof.
  cbn. unfold Contract.conventionalName.
  rewrite !append_assoc. reflexivity.
Qed.

(** Nine parameters, under [/automation/{environment}/], one per category. *)
Lemma SQSStack_parameter_paths :
  map fst (parameters (node (new_SQSStack id props)))
  = map (fun category => "/automation/" ++ environment props ++ "/" ++ category)
        categories.
Proof. reflexivity. Qed.

(** The topic, whatever the props. *)
Lemma SQSStack_topic :
  topicAt (node (new_SQSStack id props))
          (queueAlertTopic (fields (new_SQSStack id props)))
  = Some {| topicName :=
              (projectName props ++ "-" ++ environment props) ++ "-queue-alerts";
            displayName := "SQS Alerts for Watch Tower";
            masterKey := Some "QueueEncryptionKey" |}.
Proof. reflexivity. Qed.

(** C7 (as amended): the four queues name the shared key as their encryption
    master key exactly when [enableEncryption] is true or left unset; when
    it is false none of the four names a key. *)
Theorem queue_encryption_follows_the_flag :
  let stack := new_SQSStack id props in
  match enableEncryption props with
  | Some false => Forall (unencrypted stack) (queuesOf stack)
  | _ => allQueuesEncrypted stack
  end.
Proof.
  cbv zeta. unfold allQueuesEncrypted.
  destruct props as [sp e pn [[|] |] co wt oc rc];
    repeat (apply Forall_cons; [eexists; split; reflexivity |]);
    apply Forall_nil.
Qed.

(** C8: whatever the props, the messaging stack has exactly four alarms,
    with the settings of table 4.4 -- intake age: 5-minute period,
    threshold 900, 2 evaluation periods, missing data left at its default;
    result age: 3-minute period, threshold 600, 2 periods, default; intake
    DLQ depth: threshold 1, 1 period, not-breaching; result DLQ depth:
    threshold 1, 1 period, default -- and each of the four notifies the one
    topic of the stack both on entering ALARM and on returning to OK. *)
Theorem four_alarms_wired_to_the_topic :
  let stack := new_SQSStack id props in
  let f := fields stack in
  let alarms := resourcesOfType "AWS::CloudWatch::Alarm" (node stack) in
  let age queue minutes :=
    {| metricName := "ApproximateAgeOfOldestMessage"; metricOf := queue;
       period := Some (Duration.minutes minutes); statistic := None |} in
  let depth queue :=
    {| metricName := "ApproximateNumberOfMessagesVisible"; metricOf := queue;
       period := None; statistic := None |} in
  length alarms = 4%nat
  /\ map (fun ic => alarmSettings (snd ic)) alarms
     = [Some (age (orderQueue f) 5, 900, 2, None);
        Some (age (resultQueue f) 3, 600, 2, None);
        Some (depth (orderDLQ f), 1, 1, Some NOT_BREACHING);
        Some (depth (resultDLQ f), 1, 1, None)]%Z
  /\ Forall (fun ic =>
               alarmWiring (snd ic)
               = Some ([SnsAction (queueAlertTopic f)],
                       [SnsAction (queueAlertTopic f)])) alarms
  /\ map fst (resourcesOfType "AWS::SNS::Topic" (node stack)) = [queueAlertTopic f].
Proof.
  cbv zeta.
  repeat match goal with |- _ /\ _ => split end.
  - reflexivity.
  - reflexivity.
  - cbn. repeat (apply Forall_cons; [reflexivity |]); apply Forall_nil.
  - reflexivity.
Qed.

End MessagingInvariants.

(** The claim C7 makes without the flag fails on the test props with queue
    encryption switched off: the intake queue then names no key. *)
Lemma unencrypted_queues_when_flag_is_false :
  ~ MessagingContract.allQueuesEncrypted
      (SqsStack.new_SQSStack "DualQueueMessageStack-dev" Samples.sqsPropsPlain).
Proof.
  unfold MessagingContract.allQueuesEncrypted.
  intros H.
  inversion H as [| q rest [p [Hq Hkey]] _]; subst.
  cbn in Hq. injection Hq as <-.
  discriminate Hkey.
Qed.

Section TopicEncryption.
Import Cdk SqsStack Template MessagingContract.

Variable id : ConstructId.
Variable props : SQSStackProps.

(** C10: whatever the props, the notification topic of the messaging stack
    names the shared key as its master key; the topic is the same for every
    value of [enableEncryption]; in particular with [enableEncryption] false
    the four queues name no key and the topic still names the shared key. *)
Theorem topic_is_always_encrypted :
  let stack := new_SQSStack id props in
  let plain := new_SQSStack id (withEnableEncryption (Some false) props) in
  (exists t, topicAt (node stack) (queueAlertTopic (fields stack)) = Some t
     /\ masterKey t = Some (queueEncryptionKey (fields stack)))
  /\ (forall flag,
        let other := new_SQSStack id (withEnableEncryption flag props) in
        topicAt (node other) (queueAlertTopic (fields other))
        = topicAt (node stack) (queueAlertTopic (fields stack)))
  /\ Forall (unencrypted plain) (queuesOf plain)
  /\ (exists t, topicAt (node plain) (queueAlertTopic (fields plain)) = Some t
     /\ masterKey t = Some (queueEncryptionKey (fields plain)))
  /\ option_map enableKeyRotation
       (keyAt (node plain) (queueEncryptionKey (fields plain))) = Some true.
Proof.
  cbv zeta.
  repeat match goal with |- _ /\ _ => split end.
  - eexists; split; reflexivity.
  - intros flag. cbv zeta. now rewrite !SQSStack_topic.
  - cbn. repeat (apply Forall_cons; [eexists; split; reflexivity |]); apply Forall_nil.
  - eexists; split; reflexivity.
  - reflexivity.
Qed.

End TopicEncryption.

Section Determinism.
Import Cdk SqsStack Template MessagingContract.

(** The construct table is a function of the props the constructor reads:
    environment, project name, the encryption flag after its default, the
    four queue numbers after their defaults, and the stack's account.
    [enableCostOptimization], [watchTowerTopicArn], the description, the
    tags and the region never reach it. *)
Lemma SQSStack_reads (id1 id2 : ConstructId) (p1 p2 : SQSStackProps) :
  environment p1 = environment p2 ->
  projectName p1 = projectName p2 ->
  enableEncryption p1 ?? true = enableEncryption p2 ?? true ->
  JS.chain (orderQueueConfig p1) visibilityTimeoutSeconds ?? 300%Z
  = JS.chain (orderQueueConfig p2) visibilityTimeoutSeconds ?? 300%Z ->
  JS.chain (orderQueueConfig p1) maxReceiveCount ?? 3%Z
  = JS.chain (orderQueueConfig p2) maxReceiveCount ?? 3%Z ->
  JS.chain (resultQueueConfig p1) visibilityTimeoutSeconds ?? 180%Z
  = JS.chain (resultQueueConfig p2) visibilityTimeoutSeconds ?? 180%Z ->
  JS.chain (resultQueueConfig p1) maxReceiveCount ?? 3%Z
  = JS.chain (resultQueueConfig p2) maxReceiveCount ?? 3%Z ->
  Stack_account (stackProps p1) = Stack_account (stackProps p2) ->
  node (new_SQSStack id1 p1) = node (new_SQSStack id2 p2)
  /\ fields (new_SQSStack id1 p1) = fields (new_SQSStack id2 p2).
Proof.
  intros He Hp Hk Hov Hom Hrv Hrm Ha.
  unfold new_SQSStack.
  cbv - [String.append JS.nullish JS.chain JS.stringify Stack_account
         environment projectName enableEncryption stackProps
         orderQueueConfig resultQueueConfig
         visibilityTimeoutSeconds maxReceiveCount].
  rewrite He, Hp, Hk, Hov, Hom, Hrv, Hrm, Ha.
  split; reflexivity.
Qed.

(** Parameter paths are a function of the environment name alone. *)
Lemma SQSStack_paths_of_environment (id1 id2 : ConstructId) (p1 p2 : SQSStackProps) :
  environment p1 = environment p2 ->
  map fst (parameters (node (new_SQSStack id1 p1)))
  = map fst (parameters (node (new_SQSStack id2 p2))).
Proof.
  intros He. rewrite !SQSStack_parameter_paths. now rewrite He.
Qed.

(** The constructor mutates its four alarms and nothing else, so it never
    looks at what the table already holds. *)
Lemma SQSStack_framed (p : SQSStackProps) :
  Contract.framed
    ["OrderQueueAgeAlarm"; "ResultQueueAgeAlarm"; "OrderDLQAlarm"; "ResultDLQAlarm"]
    (constructor p).
Proof.
  unfold constructor. cbv zeta.
  repeat (apply framed_bind_new; cbv beta).
  cbn [forEach].
  unfold addAlarmAction, addOkAction.
  repeat first
    [ apply framed_bind_new; cbv beta
    | apply framed_bind; [| intros _]
    | apply framed_mutate; simpl; tauto
    | apply framed_ret ].
Qed.

End Determinism.

(* ------------------------------------------------------------------ *)
(** ** The gateway stack *)

Section GatewayStack.
Import Cdk ApiGateway Template GatewayContract.

Variable id : ConstructId.
Variable props : ApiGatewayStackProps.

(** How many domains and DNS records the constructor provisions, in every
    case, and whether the stack keeps a record reference. *)
Lemma ApiGatewayStack_domain_counts :
  let stack := new_ApiGatewayStack id props in
  let imported :=
    JS.truthy (existingDomainRegionalDomainName props)
    && JS.truthy (existingDomainRegionalHostedZoneId props) in
  let recorded :=
    createRecordFlag props
    && negb (JS.truthy (existingDomainRegionalDomainName props)) in
  resourceCount "AWS::ApiGateway::DomainName" (node stack)
  = (if imported then 0 else 1)%nat
  /\ resourceCount "AWS::Route53::RecordSet" (node stack)
     = (if recorded then 1 else 0)%nat
  /\ dnsRecord (fields stack) = (if recorded then Some "ApiAliasRecord" else None)
  /\ customDomain (fields stack) = "CustomDomain"
  /\ resourceCount "AWS::ApiGateway::BasePathMapping" (node stack) = 1%nat.
Proof.
  destruct props as [sp e pn lf ca hz hzn dn bp th name zone flag].
  unfold new_ApiGatewayStack, constructor, createRecordFlag, JS.narrow, JS.truthy.
  cbv zeta. cbn [existingDomainRegionalDomainName
                 existingDomainRegionalHostedZoneId createDnsRecord].
  destruct name as [n |]; [destruct (n =? EmptyString) |];
    (destruct zone as [z |]; [destruct (z =? EmptyString) |]);
    destruct flag as [[|] |];
    repeat split.
Qed.

(** The domain construct itself, on each branch. *)
Lemma ApiGatewayStack_domain :
  let stack := new_ApiGatewayStack id props in
  tryFindChild "CustomDomain" (node stack)
  = match JS.narrow (existingDomainRegionalDomainName props),
          JS.narrow (existingDomainRegionalHostedZoneId props) with
    | Some aliasTarget, Some aliasZone =>
        Some (ImportedDomainName {|
          attr_domainName := domainName props;
          domainNameAliasTarget := aliasTarget;
          domainNameAliasHostedZoneId := aliasZone |})
    | _, _ =>
        Some (DomainName {|
          dn_domainName := domainName props;
          certificate := "Certificate";
          endpointType := REGIONAL;
          securityPolicy := TLS_1_2 |})
    end
  /\ (JS.truthy (existingDomainRegionalDomainName props)
      && JS.truthy (existingDomainRegionalHostedZoneId props) = false ->
      tryFindChild "Certificate" (node stack)
      = Some (ImportedCertificate (certificateArn props))).
Proof.
  destruct props as [sp e pn lf ca hz hzn dn bp th name zone flag].
  unfold new_ApiGatewayStack, constructor, JS.narrow, JS.truthy.
  cbv zeta. cbn [existingDomainRegionalDomainName
                 existingDomainRegionalHostedZoneId createDnsRecord].
  destruct name as [n |]; [destruct (n =? EmptyString) |];
    (destruct zone as [z |]; [destruct (z =? EmptyString) |]);
    destruct flag as [[|] |];
    split; try reflexivity; try (intros _; reflexivity);
    cbn; discriminate.
Qed.

(** C4: for every gateway configuration, when both alias-import fields
    (alias target domain and alias hosted zone) are supplied, no domain
    resource and no DNS record is provisioned -- the domain is the imported
    one, with the supplied alias target and zone; when both are absent,
    exactly one domain resource is provisioned, with TLS 1.2 as its security
    policy and the given certificate, and a DNS alias record is provisioned
    if and only if the create-record flag is true.  A field is supplied when
    it is set to a non-empty string, which is what the source's guards test. *)
Theorem domain_binding_is_exclusive :
  let stack := new_ApiGatewayStack id props in
  let aliasTarget := existingDomainRegionalDomainName props in
  let aliasZone := existingDomainRegionalHostedZoneId props in
  let domains := resourceCount "AWS::ApiGateway::DomainName" (node stack) in
  let records := resourceCount "AWS::Route53::RecordSet" (node stack) in
  (JS.truthy aliasTarget = true -> JS.truthy aliasZone = true ->
     domains = 0%nat /\ records = 0%nat /\ dnsRecord (fields stack) = None
     /\ exists target zone,
          aliasTarget = Some target /\ aliasZone = Some zone
          /\ tryFindChild (customDomain (fields stack)) (node stack)
             = Some (ImportedDomainName {|
                 attr_domainName := domainName props;
                 domainNameAliasTarget := target;
                 domainNameAliasHostedZoneId := zone |}))
  /\ (JS.truthy aliasTarget = false -> JS.truthy aliasZone = false ->
     domains = 1%nat
     /\ (exists certificate,
           tryFindChild (customDomain (fields stack)) (node stack)
           = Some (DomainName {|
               dn_domainName := domainName props;
               certificate := certificate;
               endpointType := REGIONAL;
               securityPolicy := TLS_1_2 |})
           /\ tryFindChild certificate (node stack)
              = Some (ImportedCertificate (certificateArn props)))
     /\ (records = 1%nat <-> createRecordFlag props = true)
     /\ (records = 0%nat <-> createRecordFlag props = false)).
Proof.
  cbv zeta.
  destruct ApiGatewayStack_domain_counts as (Hd & Hr & Hf & Hc & _).
  destruct ApiGatewayStack_domain as (Hdom & Hcert).
  cbv zeta in Hd, Hr, Hf, Hc, Hdom, Hcert.
  rewrite Hd, Hr, Hf, Hc, Hdom.
  split.
  - intros Ht Hz.
    destruct (narrow_truthy _ Ht) as (target & Et & Nt).
    destruct (narrow_truthy _ Hz) as (zone & Ez & Nz).
    rewrite Ht, Hz, Nt, Nz, andb_false_r. cbn.
    repeat split. now exists target, zone.
  - intros Ht Hz.
    rewrite Ht, Hz, (narrow_falsy _ Ht), andb_true_r. cbn.
    split; [reflexivity |].
    split.
    + exists "Certificate". split; [reflexivity |].
      apply Hcert. now rewrite Ht.
    + destruct (createRecordFlag props); split; split; congruence.
Qed.

(** Only the alias target gates the record: with a target and no zone the
    domain is created and no record is, whatever the flag. *)
Lemma alias_target_alone_suppresses_the_record :
  let stack := new_ApiGatewayStack id props in
  JS.truthy (existingDomainRegionalDomainName props) = true ->
  JS.truthy (existingDomainRegionalHostedZoneId props) = false ->
  resourceCount "AWS::ApiGateway::DomainName" (node stack) = 1%nat
  /\ resourceCount "AWS::Route53::RecordSet" (node stack) = 0%nat.
Proof.
  cbv zeta. intros Ht Hz.
  destruct ApiGatewayStack_domain_counts as (Hd & Hr & _).
  cbv zeta in Hd, Hr.
  rewrite Hd, Hr, Ht, Hz. cbn.
  destruct (createRecordFlag props); now split.
Qed.

(** Explicit names of the gateway stack: the REST API is
    [{project}-telegram-bot-api-{environment}], the topic and the two
    alarms are [{project}-{environment}-{purpose}]. *)
Lemma ApiGatewayStack_names :
  names (node (new_ApiGatewayStack id props))
  = (projectName props ++ "-telegram-bot-api-" ++ environment props)
    :: map (Contract.conventionalName (projectName props) (environment props))
           purposes.
Proof.
  destruct props as [sp e pn lf ca hz hzn dn bp th name zone flag].
  unfold new_ApiGatewayStack, constructor, JS.narrow, JS.truthy.
  cbv zeta. cbn [existingDomainRegionalDomainName
                 existingDomainRegionalHostedZoneId createDnsRecord
                 projectName environment].
  unfold Contract.conventionalName.
  destruct name as [n |]; [destruct (n =? EmptyString) |];
    (destruct zone as [z |]; [destruct (z =? EmptyString) |]);
    destruct flag as [[|] |];
    cbn; rewrite !append_assoc; reflexivity.
Qed.

(** Two alarms, five parameters, one topic without a key, on every branch. *)
Lemma ApiGatewayStack_counts :
  let stack := new_ApiGatewayStack id props in
  resourceCount "AWS::CloudWatch::Alarm" (node stack) = 2%nat
  /\ resourceCount "AWS::SNS::Topic" (node stack) = 1%nat
  /\ resourceCount "AWS::ApiGateway::RestApi" (node stack) = 1%nat
  /\ map fst (parameters (node stack))
     = map (fun category =>
              "/automation/" ++ environment props ++ "/api-gateway/" ++ category)
           ["rest-api-id"; "rest-api-url"; "domain-name"; "stage-name"; "source-arn"].
Proof.
  destruct props as [sp e pn lf ca hz hzn dn bp th name zone flag].
  unfold new_ApiGatewayStack, constructor, JS.narrow, JS.truthy.
  cbv zeta. cbn [existingDomainRegionalDomainName
                 existingDomainRegionalHostedZoneId createDnsRecord environment].
  destruct name as [n |]; [destruct (n =? EmptyString) |];
    (destruct zone as [z |]; [destruct (z =? EmptyString) |]);
    destruct flag as [[|] |];
    repeat split.
Qed.

End GatewayStack.

(* ------------------------------------------------------------------ *)
(** ** The app entry point *)

Section EntryPoint.
Import Cdk Bin Orchestrator Contract.

Lemma truthy_narrow (o : option string) :
  JS.truthy o = match JS.narrow o with Some _ => true | None => false end.
Proof.
  destruct o as [s |]; simpl; [| reflexivity].
  now destruct (s =? EmptyString).
Qed.

(** Resolving the environment never touches the app. *)
Lemma resolveEnvironment_pure (ctx : Context) (app : App) :
  snd (resolveEnvironment ctx app) = app.
Proof.
  unfold resolveEnvironment.
  destruct (ctx_environments ctx) as [environments |]; [| reflexivity].
  destruct (length (Object_keys environments) =? 0)%nat; [reflexivity |].
  cbv zeta.
  now destruct (get environments _).
Qed.

(** Neither does it depend on it. *)
Lemma resolveEnvironment_result (ctx : Context) (app app' : App) :
  fst (resolveEnvironment ctx app) = fst (resolveEnvironment ctx app').
Proof.
  unfold resolveEnvironment.
  destruct (ctx_environments ctx) as [environments |]; [| reflexivity].
  destruct (length (Object_keys environments) =? 0)%nat; [reflexivity |].
  cbv zeta.
  now destruct (get environments _).
Qed.

(** What resolves is an entry of the registry, under the resolved name. *)
Lemma resolveEnvironment_inr (ctx : Context) (name : string) (cfg : EnvConfig) :
  fst (resolveEnvironment ctx new_App) = inr (name, cfg) ->
  exists environments,
    ctx_environments ctx = Some environments /\ get environments name = Some cfg.
Proof.
  unfold resolveEnvironment.
  destruct (ctx_environments ctx) as [environments |]; [| discriminate].
  destruct (length (Object_keys environments) =? 0)%nat; [discriminate |].
  cbv zeta.
  destruct (get environments _) as [c |] eqn:E; [| discriminate].
  simpl. intros [= <- <-]. now exists environments.
Qed.

(** Once the environment is resolved, a run is the account check followed
    by the instantiation, on the fresh app. *)
Lemma run_resolved (ctx : Context) (AWS_ACCOUNT_ID : option string)
    (name : string) (cfg : EnvConfig) :
  fst (resolveEnvironment ctx new_App) = inr (name, cfg) ->
  run ctx AWS_ACCOUNT_ID =
  match checkAccount AWS_ACCOUNT_ID name cfg new_App with
  | (inl e, app) => (inl e, app)
  | (inr _, app) => instantiate cfg app
  end.
Proof.
  intros Hres.
  pose proof (resolveEnvironment_pure ctx new_App) as Hpure.
  unfold run, main, bind.
  destruct (resolveEnvironment ctx new_App) as [[e | [n c]] app]; simpl in *.
  - discriminate.
  - injection Hres as -> ->. subst app. reflexivity.
Qed.

(** The stacks an instantiation leaves in a fresh app. *)
Lemma instantiate_stacks (cfg : EnvConfig) :
  fst (instantiate cfg new_App) = inr tt
  /\ map fst (stacks (snd (instantiate cfg new_App)))
     = ("DualQueueMessageStack-" ++ envName cfg)
       :: (if gatewayConfigured cfg
           then ["ApiGatewayStack-" ++ envName cfg] else [])
  /\ stackCount isSqsStack (snd (instantiate cfg new_App)) = 1%nat
  /\ stackCount isApiGatewayStack (snd (instantiate cfg new_App))
     = (if gatewayConfigured cfg then 1 else 0)%nat
  /\ Forall conventionalStackId (stacks (snd (instantiate cfg new_App)))
  /\ dependencies (snd (instantiate cfg new_App))
     = (if gatewayConfigured cfg
        then [("ApiGatewayStack-" ++ envName cfg,
               "DualQueueMessageStack-" ++ envName cfg)] else []).
Proof.
  unfold gatewayConfigured, instantiate.
  rewrite !truthy_narrow.
  destruct (JS.narrow (certificateArn cfg)) as [c |];
    destruct (JS.narrow (hostedZoneId cfg)) as [z |];
    destruct (JS.narrow (hostedZoneName cfg)) as [zn |];
    destruct (JS.narrow (domainName cfg)) as [d |];
    repeat match goal with |- _ /\ _ => split end;
    try reflexivity;
    repeat (apply Forall_cons; [split; reflexivity |]); apply Forall_nil.
Qed.

(** C2: for every input where the environment resolves, an external account
    identifier is supplied (set and non-empty, which is what the source's
    guard tests) and differs from the resolved configuration's account, the
    run fails with an error whose message contains both the supplied
    identifier and the configured account, and at the failure the app holds
    no stack: it is still the fresh app. *)
Theorem account_mismatch_fails_before_any_stack
    (ctx : Context) (AWS_ACCOUNT_ID : option string)
    (resolvedEnvName : string) (envCfg : EnvConfig) :
  fst (resolveEnvironment ctx new_App) = inr (resolvedEnvName, envCfg) ->
  JS.truthy AWS_ACCOUNT_ID = true ->
  AWS_ACCOUNT_ID <> Some (account envCfg) ->
  exists provided message,
    AWS_ACCOUNT_ID = Some provided
    /\ run ctx AWS_ACCOUNT_ID = (inl (mkError message), new_App)
    /\ contains message provided
    /\ contains message (account envCfg)
    /\ stacks (snd (run ctx AWS_ACCOUNT_ID)) = [].
Proof.
  intros Hres Hsupplied Hdiffers.
  destruct (narrow_truthy _ Hsupplied) as (provided & -> & Hnarrow).
  exists provided, (accountMismatch provided envCfg resolvedEnvName).
  assert (Hrun : run ctx (Some provided)
                 = (inl (mkError (accountMismatch provided envCfg resolvedEnvName)),
                    new_App)).
  { rewrite (run_resolved _ _ _ _ Hres).
    unfold checkAccount. rewrite Hnarrow.
    destruct (String.eqb_spec provided (account envCfg)) as [E | _].
    - exfalso. apply Hdiffers. now rewrite E.
    - reflexivity. }
  repeat split.
  - exact Hrun.
  - unfold accountMismatch. apply contains_middle.
  - unfold accountMismatch. do 2 apply contains_after. apply contains_middle.
  - now rewrite Hrun.
Qed.

(** An identifier set to the empty string counts as not supplied: the check
    is skipped and the run goes on to build the stacks. *)
Lemma empty_account_id_is_not_checked
    (ctx : Context) (resolvedEnvName : string) (envCfg : EnvConfig) :
  fst (resolveEnvironment ctx new_App) = inr (resolvedEnvName, envCfg) ->
  run ctx (Some EmptyString) = instantiate envCfg new_App
  /\ run ctx None = instantiate envCfg new_App.
Proof.
  intros Hres. now rewrite !(run_resolved _ _ _ _ Hres).
Qed.

(** A supplied identifier equal to the configured account lets the run go on. *)
Lemma matching_account_id_passes
    (ctx : Context) (resolvedEnvName : string) (envCfg : EnvConfig) :
  fst (resolveEnvironment ctx new_App) = inr (resolvedEnvName, envCfg) ->
  run ctx (Some (account envCfg)) = instantiate envCfg new_App.
Proof.
  intros Hres. rewrite (run_resolved _ _ _ _ Hres).
  unfold checkAccount, JS.narrow.
  destruct (account envCfg =? EmptyString); [reflexivity |].
  now rewrite String.eqb_refl.
Qed.

(** C5 (as amended): for every resolved environment configuration whose
    account check passes, the run raises no error and builds the messaging
    stack, and it builds the gateway stack if and only if the certificate,
    the hosted-zone id, the hosted-zone name and the domain name are all set
    and non-empty; import data does not stand in for the certificate.  When
    one of the four is missing the gateway is skipped without an error. *)
Theorem gateway_needs_certificate_zone_and_domain
    (ctx : Context) (AWS_ACCOUNT_ID : option string)
    (resolvedEnvName : string) (envCfg : EnvConfig) :
  fst (resolveEnvironment ctx new_App) = inr (resolvedEnvName, envCfg) ->
  JS.truthy AWS_ACCOUNT_ID = false \/ AWS_ACCOUNT_ID = Some (account envCfg) ->
  let outcome := run ctx AWS_ACCOUNT_ID in
  fst outcome = inr tt
  /\ stackCount isSqsStack (snd outcome) = 1%nat
  /\ (stackCount isApiGatewayStack (snd outcome) = 1%nat
      <-> gatewayConfigured envCfg = true)
  /\ (stackCount isApiGatewayStack (snd outcome) = 0%nat
      <-> gatewayConfigured envCfg = false).
Proof.
  intros Hres Hpass. cbv zeta.
  assert (Hrun : run ctx AWS_ACCOUNT_ID = instantiate envCfg new_App).
  { destruct Hpass as [Hnone | ->].
    - rewrite (run_resolved _ _ _ _ Hres).
      unfold checkAccount. now rewrite (narrow_falsy _ Hnone).
    - now apply matching_account_id_passes with resolvedEnvName. }
  rewrite Hrun.
  destruct (instantiate_stacks envCfg) as (Hok & _ & Hsqs & Hapi & _).
  rewrite Hok, Hsqs, Hapi.
  destruct (gatewayConfigured envCfg); repeat split; congruence.
Qed.

End EntryPoint.

Section Naming.
Import Cdk Bin Orchestrator Contract Template.

(** Whatever a run leaves in the app sits there under a conventional id. *)
Lemma run_stack_ids (ctx : Context) (AWS_ACCOUNT_ID : option string) :
  Forall conventionalStackId (stacks (snd (run ctx AWS_ACCOUNT_ID))).
Proof.
  destruct (fst (resolveEnvironment ctx new_App)) as [e | [name cfg]] eqn:Hres.
  - pose proof (resolveEnvironment_pure ctx new_App) as Hpure.
    unfold run, main, bind.
    destruct (resolveEnvironment ctx new_App) as [[e' | r] app]; simpl in *.
    + subst app. apply Forall_nil.
    + discriminate.
  - rewrite (run_resolved _ _ _ _ Hres).
    unfold checkAccount.
    destruct (JS.narrow AWS_ACCOUNT_ID) as [provided |].
    + destruct (provided =? account cfg); simpl.
      * apply (instantiate_stacks cfg).
      * apply Forall_nil.
    + apply (instantiate_stacks cfg).
Qed.

(** C6 (as amended): for every configuration, every queue, role, topic and
    alarm is named [{project}-{environment}-{purpose}] exactly, purpose by
    purpose, in the messaging stack and in the gateway stack; the REST API
    is named [{project}-telegram-bot-api-{environment}]; and the stacks of a
    run sit in the app under [DualQueueMessageStack-{environment}] and
    [ApiGatewayStack-{environment}]. *)
Theorem names_follow_the_convention
    (sqsId apiId : ConstructId)
    (sqsProps : SqsStack.SQSStackProps) (apiProps : ApiGateway.ApiGatewayStackProps)
    (ctx : Context) (AWS_ACCOUNT_ID : option string) :
  let sqs := SqsStack.new_SQSStack sqsId sqsProps in
  let api := ApiGateway.new_ApiGatewayStack apiId apiProps in
  let sqsName :=
    conventionalName (SqsStack.projectName sqsProps) (SqsStack.environment sqsProps) in
  let apiName :=
    conventionalName (ApiGateway.projectName apiProps)
                     (ApiGateway.environment apiProps) in
  names (SqsStack.node sqs) = map sqsName MessagingContract.purposes
  /\ Forall (followsConvention (SqsStack.projectName sqsProps)
                               (SqsStack.environment sqsProps))
            (names (SqsStack.node sqs))
  /\ names (ApiGateway.node api)
     = (ApiGateway.projectName apiProps ++ "-telegram-bot-api-"
          ++ ApiGateway.environment apiProps)
       :: map apiName GatewayContract.purposes
  /\ Forall (followsConvention (ApiGateway.projectName apiProps)
                               (ApiGateway.environment apiProps))
            (tl (names (ApiGateway.node api)))
  /\ Forall conventionalStackId (stacks (snd (run ctx AWS_ACCOUNT_ID))).
Proof.
  cbv zeta.
  rewrite SQSStack_names, ApiGatewayStack_names.
  repeat match goal with |- _ /\ _ => split end.
  - reflexivity.
  - apply Forall_forall. intros name Hin.
    apply in_map_iff in Hin as (purpose & <- & Hp).
    apply conventionalName_follows.
    intros ->. simpl in Hp. intuition discriminate.
  - reflexivity.
  - apply Forall_forall. intros name Hin. cbn [tl] in Hin.
    apply in_map_iff in Hin as (purpose & <- & Hp).
    apply conventionalName_follows.
    intros ->. simpl in Hp. intuition discriminate.
  - apply run_stack_ids.
Qed.

End Naming.

(* ------------------------------------------------------------------ *)
(** ** Where the claims as first worded fail *)

(** The claim C6 makes of the REST API fails on the gateway test props: the
    API is named tg-assistant-telegram-bot-api-dev, which no purpose
    completes tg-assistant-dev- to. *)
Lemma rest_api_name_breaks_the_convention :
  ~ Forall (Contract.followsConvention "tg-assistant" "dev")
      (Template.names
         (ApiGateway.node
            (ApiGateway.new_ApiGatewayStack "ApiGatewayStack-dev"
               Samples.apiPropsImported))).
Proof.
  intros H.
  rewrite ApiGatewayStack_names in H.
  apply Forall_inv in H. destruct H as [purpose [_ Hname]].
  unfold Contract.conventionalName in Hname. cbn in Hname.
  discriminate Hname.
Qed.

(** The claim C5 makes with certificate-or-import data fails on the
    environment that imports its domain and carries no certificate: its
    domain configuration is complete in the claim's sense, the run succeeds,
    and no gateway stack is built. *)
Lemma import_data_without_certificate_skips_the_gateway :
  let outcome := Orchestrator.run (Samples.contextFor "test") None in
  fst (Orchestrator.resolveEnvironment (Samples.contextFor "test") Bin.new_App)
  = inr ("test", Samples.importOnlyCfg)
  /\ fst outcome = inr tt
  /\ ~ (Contract.stackCount Contract.isApiGatewayStack (snd outcome) = 1%nat
        <-> Contract.completeDomainConfiguration Samples.importOnlyCfg = true).
Proof.
  cbv zeta. repeat split.
  intros [_ H]. specialize (H eq_refl). discriminate H.
Qed.

(* ------------------------------------------------------------------ *)
(** ** The theorems at concrete configurations *)

(** C2 at the prod environment, with the dev account supplied. *)
Lemma account_mismatch_witness :
  (fst (Orchestrator.resolveEnvironment (Samples.contextFor "prod") Bin.new_App)
   = inr ("prod", Samples.prodCfg)
   /\ JS.truthy (Some "123456789012") = true
   /\ Some "123456789012" <> Some (Bin.account Samples.prodCfg))
  /\ exists provided message,
       Some "123456789012" = Some provided
       /\ Orchestrator.run (Samples.contextFor "prod") (Some "123456789012")
          = (inl (Bin.mkError message), Bin.new_App)
       /\ Contract.contains message provided
       /\ Contract.contains message (Bin.account Samples.prodCfg)
       /\ Bin.stacks
            (snd (Orchestrator.run (Samples.contextFor "prod") (Some "123456789012")))
          = [].
Proof.
  split.
  - repeat split. discriminate.
  - apply (account_mismatch_fails_before_any_stack
             (Samples.contextFor "prod") (Some "123456789012")
             "prod" Samples.prodCfg).
    + reflexivity.
    + reflexivity.
    + discriminate.
Defined.

(** C4 at the two gateway test configurations: imported and new domain. *)
Lemma domain_binding_witness :
  (let stack := ApiGateway.new_ApiGatewayStack "TestApiGatewayStack"
                  Samples.apiPropsImported in
   Template.resourceCount "AWS::ApiGateway::DomainName" (ApiGateway.node stack) = 0%nat
   /\ Template.resourceCount "AWS::Route53::RecordSet" (ApiGateway.node stack) = 0%nat)
  /\ (let stack := ApiGateway.new_ApiGatewayStack "TestApiGatewayStack"
                     Samples.apiPropsNewDomain in
      Template.resourceCount "AWS::ApiGateway::DomainName" (ApiGateway.node stack) = 1%nat
      /\ Template.resourceCount "AWS::Route53::RecordSet" (ApiGateway.node stack) = 1%nat).
Proof.
  split; cbv zeta.
  - destruct (domain_binding_is_exclusive "TestApiGatewayStack"
                Samples.apiPropsImported) as [Himport _].
    destruct (Himport eq_refl eq_refl) as (Hd & Hr & _).
    split; assumption.
  - destruct (domain_binding_is_exclusive "TestApiGatewayStack"
                Samples.apiPropsNewDomain) as [_ Hcreate].
    destruct (Hcreate eq_refl eq_refl) as (Hd & _ & Hr & _).
    split; [assumption | apply Hr; reflexivity].
Defined.

(** C5 at the prod environment (gateway built) with no account supplied. *)
Lemma gateway_guard_witness :
  (fst (Orchestrator.resolveEnvironment (Samples.contextFor "prod") Bin.new_App)
   = inr ("prod", Samples.prodCfg)
   /\ (JS.truthy None = false \/ None = Some (Bin.account Samples.prodCfg)))
  /\ (let outcome := Orchestrator.run (Samples.contextFor "prod") None in
      fst outcome = inr tt
      /\ Contract.stackCount Contract.isSqsStack (snd outcome) = 1%nat
      /\ (Contract.stackCount Contract.isApiGatewayStack (snd outcome) = 1%nat
          <-> Contract.gatewayConfigured Samples.prodCfg = true)
      /\ (Contract.stackCount Contract.isApiGatewayStack (snd outcome) = 0%nat
          <-> Contract.gatewayConfigured Samples.prodCfg = false)).
Proof.
  split.
  - split; [reflexivity | left; reflexivity].
  - apply (gateway_needs_certificate_zone_and_domain
             (Samples.contextFor "prod") None "prod" Samples.prodCfg).
    + reflexivity.
    + left; reflexivity.
Defined.



(** The mismatch message, as the script words it. *)
Example account_mismatch_message :
  fst (Orchestrator.run (Samples.contextFor "prod") (Some "123456789012"))
  = inl (Bin.mkError
      "AWS account mismatch: AWS_ACCOUNT_ID=123456789012 does not match CDK context account=210987654321 for environment 'prod'.").
Proof. reflexivity. Qed.

(** An unknown environment lists the registered ones. *)
Example unknown_environment_message :
  Orchestrator.run (Samples.contextFor "staging") None
  = (inl (Bin.mkError "Unknown environment 'staging'. Available: dev, prod, test"),
     Bin.new_App).
Proof. reflexivity. Qed.

(** With no environment named anywhere the run is for dev. *)
Example default_environment_is_dev :
  map fst (Bin.stacks (snd (Orchestrator.run Samples.context None)))
  = ["DualQueueMessageStack-dev"].
Proof. reflexivity. Qed.

(** The prod environment gets both stacks, the gateway after the queues. *)
Example prod_run :
  let app := snd (Orchestrator.run (Samples.contextFor "prod") None) in
  map fst (Bin.stacks app) = ["DualQueueMessageStack-prod"; "ApiGatewayStack-prod"]
  /\ Bin.dependencies app = [("ApiGatewayStack-prod", "DualQueueMessageStack-prod")]
  /\ Bin.stackTags app
     = [("DualQueueMessageStack-prod", ("app", "telegram-webhook"));
        ("DualQueueMessageStack-prod", ("env", "prod"));
        ("ApiGatewayStack-prod", ("app", "telegram-webhook"));
        ("ApiGatewayStack-prod", ("env", "prod"))].
Proof. repeat split. Qed.

(** The queue names the repository's tests expect. *)
Example test_queue_names :
  Template.names
    (Template.resourcesOfType "AWS::SQS::Queue"
       (SqsStack.node (SqsStack.new_SQSStack "TestStack" Samples.sqsProps)))
  = ["tg-assistant-dev-order-dlq"; "tg-assistant-dev-result-dlq";
     "tg-assistant-dev-order"; "tg-assistant-dev-result"].
Proof. reflexivity. Qed.

(** The REST API name the repository's tests expect. *)
Example test_rest_api_name :
  Template.names
    (Template.resourcesOfType "AWS::ApiGateway::RestApi"
       (ApiGateway.node
          (ApiGateway.new_ApiGatewayStack "TestApiGatewayStack"
             Samples.apiPropsImported)))
  = ["tg-assistant-telegram-bot-api-dev"].
Proof. reflexivity. Qed.

(** Tuned queues: the overrides reach the queues, the others keep defaults. *)
Example tuned_queue_numbers :
  let stack := SqsStack.new_SQSStack "TestStack" Samples.sqsPropsTuned in
  map (fun q =>
         match Template.queueAt (SqsStack.node stack) q with
         | Some p =>
             (option_map Cdk.Duration.toSeconds (Cdk.visibilityTimeout p),
              option_map Cdk.maxReceiveCount (Cdk.deadLetterQueue p))
         | None => (None, None)
         end)
      (MessagingContract.queuesOf stack)
  = [(Some 60%Z, Some 3%Z); (Some 180%Z, Some 5%Z); (None, None); (None, None)].
Proof. reflexivity. Qed.

(** The configuration snapshot is the JSON the consumers parse. *)
Example default_queue_configuration :
  Cdk.tryFindChild "QueueConfiguration"
    (SqsStack.node (SqsStack.new_SQSStack "TestStack" Samples.sqsProps))
  = Some (Cdk.StringParameter {|
      Cdk.parameterName := "/automation/dev/queues/config";
      Cdk.stringValue :=
        Cdk.Lit (JS.stringify (JS.JObj
          (JS.MCons "orderQueue" (JS.JObj
             (JS.MCons "visibilityTimeout" (JS.JNum 300)
             (JS.MCons "maxReceiveCount" (JS.JNum 3) JS.MNil)))
          (JS.MCons "resultQueue" (JS.JObj
             (JS.MCons "visibilityTimeout" (JS.JNum 180)
             (JS.MCons "maxReceiveCount" (JS.JNum 3) JS.MNil)))
           JS.MNil))));
      Cdk.parameter_description :=
        "Queue configuration parameters for Lambda integration" |}).
Proof. reflexivity. Qed.

(** Numbers print in decimal. *)
Example stringify_object :
  JS.stringify (JS.JObj (JS.MCons "a" (JS.JNum 300) (JS.MCons "b" (JS.JNum 3) JS.MNil)))
  = "{" ++ JS.dquote ++ "a" ++ JS.dquote ++ ":300,"
        ++ JS.dquote ++ "b" ++ JS.dquote ++ ":3}".
Proof. reflexivity. Qed.

(** The dev scenario: no gateway data, so one stack with four queues, four
    alarms and nine parameters, the intake queue at 300 seconds. *)
Example dev_scenario :
  let app := snd (Orchestrator.run Samples.context None) in
  Contract.stackCount Contract.isApiGatewayStack app = 0%nat
  /\ match Bin.stacks app with
     | [(_, Bin.SQS s)] =>
         Template.names (Template.resourcesOfType "AWS::SQS::Queue" (SqsStack.node s))
         = ["tg-assistant-dev-order-dlq"; "tg-assistant-dev-result-dlq";
            "tg-assistant-dev-order"; "tg-assistant-dev-result"]
         /\ option_map Cdk.visibilityTimeout
              (Template.queueAt (SqsStack.node s) (SqsStack.orderQueue (SqsStack.fields s)))
            = Some (Some (Cdk.Duration.seconds 300))
         /\ Template.resourceCount "AWS::CloudWatch::Alarm" (SqsStack.node s) = 4%nat
         /\ Template.resourceCount "AWS::SSM::Parameter" (SqsStack.node s) = 9%nat
     | _ => False
     end.
Proof. cbv zeta. cbn. repeat split. Qed.

(** The prod scenario: full gateway data with an imported domain, so no
    domain resource, no DNS record, and one path mapping onto the import. *)
Example prod_scenario :
  let app := snd (Orchestrator.run (Samples.contextFor "prod") None) in
  match Bin.stacks app with
  | [_; (_, Bin.API s)] =>
      Template.resourceCount "AWS::ApiGateway::DomainName" (ApiGateway.node s) = 0%nat
      /\ Template.resourceCount "AWS::Route53::RecordSet" (ApiGateway.node s) = 0%nat
      /\ Template.resourceCount "AWS::ApiGateway::BasePathMapping" (ApiGateway.node s)
         = 1%nat
      /\ Cdk.tryFindChild "CustomDomain" (ApiGateway.node s)
         = Some (Cdk.ImportedDomainName {|
             Cdk.attr_domainName := "tg.qlibin.com";
             Cdk.domainNameAliasTarget :=
               "d-ekl8ubthta.execute-api.eu-central-1.amazonaws.com";
             Cdk.domainNameAliasHostedZoneId := "Z1U9ULNL0V5AJ3" |})
  | _ => False
  end.
Proof. cbv zeta. cbn. repeat split. Qed.

(* ------------------------------------------------------------------ *)
(** ** More on strings *)

Section MoreStrings.
Import Contract Integrity.

Lemma append_nil_r (s : string) : s ++ EmptyString = s.
Proof. induction s as [| c s IH]; simpl; [reflexivity | now rewrite IH]. Qed.

Lemma append_cancel_l (a x y : string) : a ++ x = a ++ y -> x = y.
Proof.
  induction a as [| c a IH]; simpl; [auto |].
  intros [= H]. now apply IH.
Qed.

Lemma eqb_append_l (a x y : string) : (a ++ x =? a ++ y) = (x =? y).
Proof.
  induction a as [| c a IH]; simpl; [reflexivity |].
  now rewrite Ascii.eqb_refl.
Qed.

Lemma contains_refl (s : string) : contains s s.
Proof. exists EmptyString, EmptyString. simpl. now rewrite append_nil_r. Qed.

Lemma contains_before (s sub b : string) :
  contains s sub -> contains (s ++ b) sub.
Proof.
  intros [before [after ->]].
  exists before, (after ++ b).
  now rewrite !append_assoc.
Qed.

Lemma join_contains (sep : string) (xs : list string) (x : string) :
  In x xs -> contains (JS.join sep xs) x.
Proof.
  unfold JS.join.
  induction xs as [| y [| z rest] IH]; intros Hin.
  - destruct Hin.
  - destruct Hin as [-> | []]. apply contains_refl.
  - destruct Hin as [-> | Hin].
    + change (contains (x ++ sep ++ String.concat sep (z :: rest)) x).
      apply contains_before with (s := x), contains_refl.
    + change (contains (y ++ sep ++ String.concat sep (z :: rest)) x).
      do 2 apply contains_after. now apply IH.
Qed.

End MoreStrings.

(* ------------------------------------------------------------------ *)
(** ** Construct tables in general *)

Section Tables.
Import Cdk Template Integrity.

Lemma closedb_closed (s : Scope) : closedb s = true -> closed s.
Proof.
  unfold closedb, closed. intros H.
  apply Forall_forall. intros ic Hic.
  rewrite forallb_forall in H. specialize (H ic Hic).
  apply Forall_forall. intros r Hr.
  rewrite forallb_forall in H. specialize (H r Hr).
  unfold registered in H. now destruct (tryFindChild r s).
Qed.

Lemma tryFindChild_In (s : Scope) (id : ConstructId) (c : Construct) :
  tryFindChild id s = Some c -> In (id, c) s.
Proof.
  induction s as [| [i d] rest IH]; simpl; [discriminate |].
  destruct (String.eqb_spec i id) as [-> | _].
  - intros [= ->]. now left.
  - intros H. right. now apply IH.
Qed.

(** Where ids are unique, looking an id up finds the construct that was
    registered under it. *)
Lemma tryFindChild_registered (s : Scope) (id : ConstructId) (c : Construct) :
  NoDup (map fst s) -> In (id, c) s -> tryFindChild id s = Some c.
Proof.
  induction s as [| [i d] rest IH]; simpl; [intros _ [] |].
  intros Hnd [[= -> ->] | Hin].
  - now rewrite String.eqb_refl.
  - apply NoDup_cons_iff in Hnd as [Hfresh Hnd].
    destruct (String.eqb_spec i id) as [-> | _].
    + exfalso. apply Hfresh. apply in_map_iff. now exists (id, c).
    + now apply IH.
Qed.

End Tables.

(* ------------------------------------------------------------------ *)
(** ** More on the messaging stack *)

Section MessagingTables.
Import Cdk SqsStack Template Integrity MessagingContract.

Variable id : ConstructId.
Variable props : SQSStackProps.

Lemma SQSStack_ids_NoDup : NoDup (map fst (node (new_SQSStack id props))).
Proof.
  rewrite SQSStack_ids.
  repeat (apply NoDup_cons; [cbn; intuition discriminate |]).
  apply NoDup_nil.
Qed.

(** X1: in the messaging stack no two constructs are registered under the
    same id, whatever the props, so a construct is in the table exactly
    when looking its id up finds it. *)
Theorem messaging_ids_are_unique :
  NoDup (map fst (node (new_SQSStack id props)))
  /\ forall cid c,
       In (cid, c) (node (new_SQSStack id props)) <->
       tryFindChild cid (node (new_SQSStack id props)) = Some c.
Proof.
  split; [apply SQSStack_ids_NoDup |].
  intros cid c. split.
  - apply tryFindChild_registered, SQSStack_ids_NoDup.
  - apply tryFindChild_In.
Qed.

(** X2: whatever the props, every reference inside the messaging stack --
    redrive targets, encryption keys, the resources of the role statements,
    the metric sources and notified topic of the alarms, the sources of the
    published values -- names a construct the stack holds. *)
Theorem messaging_table_is_closed : closed (node (new_SQSStack id props)).
Proof.
  apply closedb_closed.
  destruct props as [sp e pn [[|] |] co wt oc rc]; reflexivity.
Qed.

(** X3: whatever the props, exactly two queues redrive, and each redrives to
    a queue that was registered before it and that itself redrives nowhere. *)
Theorem dead_letter_queues_come_first :
  let stack := new_SQSStack id props in
  length (filter (fun ic => redrives (snd ic)) (node stack)) = 2%nat
  /\ Forall (fun ic =>
       forall p d, snd ic = Queue p -> deadLetterQueue p = Some d ->
         exists n m dlq,
           position (queue d) (node stack) = Some n
           /\ position (fst ic) (node stack) = Some m
           /\ (n < m)%nat
           /\ queueAt (node stack) (queue d) = Some dlq
           /\ deadLetterQueue dlq = None)
       (node stack).
Proof.
  cbv zeta. split; [reflexivity |].
  destruct props as [sp e pn [[|] |] co wt oc rc]; cbn;
    repeat (apply Forall_cons;
            [ cbn; intros p d Hq Hd;
              try discriminate Hq;
              injection Hq as <-; cbn in Hd; try discriminate Hd;
              injection Hd as <-;
              do 3 eexists; repeat split; try reflexivity; cbn; lia
            | ]);
    apply Forall_nil.
Qed.

(** X4: whatever the props, the snapshot published under queues/config is
    the JSON of the visibility timeouts (in seconds) and redrive thresholds
    the two primary queues of the same stack actually have. *)
Theorem snapshot_matches_the_queues :
  let stack := new_SQSStack id props in
  let f := fields stack in
  exists order result orderVisibility resultVisibility orderRedrive resultRedrive,
    queueAt (node stack) (orderQueue f) = Some order
    /\ queueAt (node stack) (resultQueue f) = Some result
    /\ visibilityTimeout order = Some orderVisibility
    /\ visibilityTimeout result = Some resultVisibility
    /\ deadLetterQueue order = Some orderRedrive
    /\ deadLetterQueue result = Some resultRedrive
    /\ published ("/automation/" ++ environment props ++ "/queues/config")
         (parameters (node stack))
       = Some (Lit (JS.stringify
           (snapshot (Duration.toSeconds orderVisibility)
                     (Cdk.maxReceiveCount orderRedrive)
                     (Duration.toSeconds resultVisibility)
                     (Cdk.maxReceiveCount resultRedrive)))).
Proof.
  cbv zeta.
  do 6 eexists.
  repeat match goal with |- _ /\ _ => split end; try reflexivity.
  cbn. rewrite !eqb_append_l. cbn. reflexivity.
Qed.

(** X5: whatever the props, the actions each role holds on each resource
    are: webhook -- send, get-attributes and get-url on the intake queue,
    nothing on the result queue; worker -- receive, delete,
    change-visibility and get-attributes on the intake queue, send and
    get-attributes on the result queue; feedback -- the same with the two
    queues exchanged; and decrypt and generate-data-key on the key for all
    three.  So the webhook can consume nothing and the worker cannot send
    to the intake queue. *)
Theorem grants_per_role_and_resource :
  let stack := new_SQSStack id props in
  let f := fields stack in
  let order := queueArn (orderQueue f) in
  let result := queueArn (resultQueue f) in
  let key := keyArn (queueEncryptionKey f) in
  let consume := ["sqs:ReceiveMessage"; "sqs:DeleteMessage";
                  "sqs:ChangeMessageVisibility"; "sqs:GetQueueAttributes"] in
  let produce := ["sqs:SendMessage"; "sqs:GetQueueAttributes"] in
  let crypt := ["kms:Decrypt"; "kms:GenerateDataKey"] in
  map (fun role => map (actionsOn (node stack) role) [order; result; key])
      [webhookRole f; workerRole f; feedbackRole f]
  = [ [ ["sqs:SendMessage"; "sqs:GetQueueAttributes"; "sqs:GetQueueUrl"]; []; crypt ];
      [ consume; produce; crypt ];
      [ produce; consume; crypt ] ].
Proof. reflexivity. Qed.

(** X6: whatever the props, each of the three roles is assumed by
    lambda.amazonaws.com only, carries the basic-execution managed policy
    only, has one inline policy whose statements all allow, and the single
    condition among all statements is the webhook's: aws:SourceAccount
    equal to the stack's account. *)
Theorem roles_trust_lambda_only :
  let stack := new_SQSStack id props in
  let roles := resourcesOfType "AWS::IAM::Role" (node stack) in
  Forall (fun ic =>
    exists p, snd ic = Role p
      /\ assumedBy p = "lambda.amazonaws.com"
      /\ managedPolicies p = ["service-role/AWSLambdaBasicExecutionRole"]
      /\ length (inlinePolicies p) = 1%nat
      /\ Forall (fun st => effect st = ALLOW) (statementsOf (node stack) (fst ic)))
    roles
  /\ map (fun ic => flat_map conditions (statementsOf (node stack) (fst ic))) roles
     = [ [("StringEquals", [("aws:SourceAccount", Stack_account (stackProps props))])];
         []; [] ].
Proof.
  cbv zeta. split; [| reflexivity].
  cbn.
  repeat (apply Forall_cons;
          [eexists; repeat split; cbn;
           repeat (apply Forall_cons; [reflexivity |]); apply Forall_nil |]).
  apply Forall_nil.
Qed.

(** X7: whatever the props, the nine published values are the URL and ARN
    of the intake queue, the URL and ARN of the result queue, the snapshot
    of the four queue numbers after their defaults (300, 3, 180, 3), the
    ARNs of the three roles and the ARN of the alert topic, each under its
    own path; and every resource a role statement is scoped to is one of
    the two published queue ARNs or the key. *)
Theorem exports_name_the_scoped_resources :
  let stack := new_SQSStack id props in
  let f := fields stack in
  let at_ category :=
    published ("/automation/" ++ environment props ++ "/" ++ category)
              (parameters (node stack)) in
  map at_ categories
  = [Some (queueUrl (orderQueue f)); Some (queueArn (orderQueue f));
     Some (queueUrl (resultQueue f)); Some (queueArn (resultQueue f));
     Some (Lit (JS.stringify
       (snapshot (overrideOr (orderQueueConfig props) visibilityTimeoutSeconds 300)
                 (overrideOr (orderQueueConfig props) maxReceiveCount 3)
                 (overrideOr (resultQueueConfig props) visibilityTimeoutSeconds 180)
                 (overrideOr (resultQueueConfig props) maxReceiveCount 3))));
     Some (roleArn (webhookRole f)); Some (roleArn (workerRole f));
     Some (roleArn (feedbackRole f)); Some (topicArn (queueAlertTopic f))]
  /\ Forall (fun role =>
       Forall (fun st =>
         Forall (fun r => In (Some r) (map at_ ["queues/order/arn"; "queues/result/arn"])
                          \/ r = keyArn (queueEncryptionKey f))
                (resources st))
         (statementsOf (node stack) role))
       [webhookRole f; workerRole f; feedbackRole f].
Proof.
  cbv zeta. split.
  - cbn - [JS.stringify]. rewrite !eqb_append_l. cbn - [JS.stringify].
    destruct (orderQueueConfig props) as [[[v |] [m |]] |];
      destruct (resultQueueConfig props) as [[[w |] [k |]] |]; reflexivity.
  - cbn. rewrite !eqb_append_l. cbn.
    repeat (apply Forall_cons || apply Forall_nil); tauto.
Qed.

(** X8: whatever the project and environment names, the twelve explicit
    names of the messaging stack are pairwise distinct. *)
Theorem messaging_names_are_distinct :
  NoDup (names (node (new_SQSStack id props))).
Proof.
  rewrite SQSStack_names. unfold Contract.conventionalName.
  apply NoDup_map_NoDup_ForallPairs.
  - intros x y _ _ H. now do 4 apply append_cancel_l in H.
  - unfold purposes.
    repeat (apply NoDup_cons; [cbn; intuition discriminate |]).
    apply NoDup_nil.
Qed.

(** The published snapshot, from the props. *)
Lemma SQSStack_config :
  published ("/automation/" ++ environment props ++ "/queues/config")
    (parameters (node (new_SQSStack id props)))
  = Some (Lit (JS.stringify
      (snapshot (overrideOr (orderQueueConfig props) visibilityTimeoutSeconds 300)
                (overrideOr (orderQueueConfig props) maxReceiveCount 3)
                (overrideOr (resultQueueConfig props) visibilityTimeoutSeconds 180)
                (overrideOr (resultQueueConfig props) maxReceiveCount 3)))).
Proof.
  cbn - [JS.stringify]. rewrite !eqb_append_l. cbn - [JS.stringify].
  destruct (orderQueueConfig props) as [[[v |] [m |]] |];
    destruct (resultQueueConfig props) as [[[w |] [k |]] |]; reflexivity.
Qed.

End MessagingTables.

Section MessagingPairs.
Import Cdk SqsStack Template Integrity MessagingContract.

(** X10: the construct table and the references of a messaging stack depend
    on the props only through the environment, the project name, the
    encryption flag after its default, the four queue numbers after their
    defaults and the stack's account: spelling a default out, or changing
    [enableCostOptimization], [watchTowerTopicArn], the description, the
    tags or the region, changes nothing. *)
Theorem unread_props_do_not_reach_the_graph
    (id1 id2 : ConstructId) (p1 p2 : SQSStackProps) :
  environment p1 = environment p2 ->
  projectName p1 = projectName p2 ->
  enableEncryption p1 ?? true = enableEncryption p2 ?? true ->
  overrideOr (orderQueueConfig p1) visibilityTimeoutSeconds 300
  = overrideOr (orderQueueConfig p2) visibilityTimeoutSeconds 300 ->
  overrideOr (orderQueueConfig p1) maxReceiveCount 3
  = overrideOr (orderQueueConfig p2) maxReceiveCount 3 ->
  overrideOr (resultQueueConfig p1) visibilityTimeoutSeconds 180
  = overrideOr (resultQueueConfig p2) visibilityTimeoutSeconds 180 ->
  overrideOr (resultQueueConfig p1) maxReceiveCount 3
  = overrideOr (resultQueueConfig p2) maxReceiveCount 3 ->
  JS.chain (env (stackProps p1)) account = JS.chain (env (stackProps p2)) account ->
  node (new_SQSStack id1 p1) = node (new_SQSStack id2 p2)
  /\ fields (new_SQSStack id1 p1) = fields (new_SQSStack id2 p2).
Proof.
  intros He Hp Hk Hov Hom Hrv Hrm Ha.
  assert (Hover : forall c f d, JS.chain c f ?? d = overrideOr c f d)
    by (intros [c |] f d; simpl; [destruct (f c) |]; reflexivity).
  apply SQSStack_reads; rewrite ?Hover; try assumption.
  unfold Stack_account. now rewrite Ha.
Qed.

End MessagingPairs.

(* ------------------------------------------------------------------ *)
(** ** More on the gateway stack *)

Section GatewayTables.
Import Cdk ApiGateway Template Integrity GatewayContract.

Variable id : ConstructId.
Variable props : ApiGatewayStackProps.

(** The eighteen ways the alias target, the alias zone and the record flag
    can stand: each unset, set empty or set; the flag unset, true or false. *)
Ltac branches :=
  destruct props as [sp e pn lf ca hz hzn dn bp th name zone flag];
  unfold new_ApiGatewayStack, constructor, createRecordFlag, JS.narrow, JS.truthy;
  cbv zeta;
  cbn [existingDomainRegionalDomainName existingDomainRegionalHostedZoneId
       createDnsRecord environment projectName throttling lambdaFunctionName
       certificateArn hostedZoneId hostedZoneName domainName basePath stackProps];
  destruct name as [n |]; [destruct (n =? EmptyString) |];
  (destruct zone as [z |]; [destruct (z =? EmptyString) |]);
  destruct flag as [[|] |].

Lemma ApiGatewayStack_ids_NoDup :
  NoDup (map fst (node (new_ApiGatewayStack id props))).
Proof.
  branches;
    cbn;
    repeat (apply NoDup_cons; [cbn; intuition discriminate |]);
    apply NoDup_nil.
Qed.

(** The REST API and the function it proxies to, on every branch. *)
Lemma ApiGatewayStack_restApi :
  let stack := new_ApiGatewayStack id props in
  tryFindChild (restApi (fields stack)) (node stack)
  = Some (RestApi {|
      restApiName := projectName props ++ "-telegram-bot-api-" ++ environment props;
      api_description := "Telegram bot API Gateway for " ++ environment props;
      endpointConfiguration := [REGIONAL];
      disableExecuteApiEndpoint := true;
      deployOptions := {|
        stageName := environment props;
        throttlingRateLimit := JS.chain (throttling props) rateLimit ?? 10%Z;
        throttlingBurstLimit := JS.chain (throttling props) burstLimit ?? 25%Z;
        loggingLevel := LOG_INFO;
        dataTraceEnabled := false;
        metricsEnabled := true |} |}
      [{| pathPart := "qlibin-assistant-listener";
          methods := [("POST", {| handler := "WebhookLambda"; proxy := true;
                                  timeout := Duration.seconds 29 |})] |}])
  /\ tryFindChild "WebhookLambda" (node stack)
     = Some (ImportedFunction (lambdaFunctionName props)).
Proof.
  branches; split; reflexivity.
Qed.

(** The one path mapping, on every branch. *)
Lemma ApiGatewayStack_mapping :
  let stack := new_ApiGatewayStack id props in
  map snd (resourcesOfType "AWS::ApiGateway::BasePathMapping" (node stack))
  = [BasePathMapping {|
       bpm_domainName := customDomain (fields stack);
       bpm_restApi := restApi (fields stack);
       Cdk.basePath := basePath props;
       stage := deploymentStage (restApi (fields stack)) |}].
Proof. branches; reflexivity. Qed.

(** X11: in the gateway stack no two constructs are registered under the
    same id, on either domain branch and with or without the DNS record, so
    a construct is in the table exactly when looking its id up finds it. *)
Theorem gateway_ids_are_unique :
  NoDup (map fst (node (new_ApiGatewayStack id props)))
  /\ forall cid c,
       In (cid, c) (node (new_ApiGatewayStack id props)) <->
       tryFindChild cid (node (new_ApiGatewayStack id props)) = Some c.
Proof.
  split; [apply ApiGatewayStack_ids_NoDup |].
  intros cid c. split.
  - apply tryFindChild_registered, ApiGatewayStack_ids_NoDup.
  - apply tryFindChild_In.
Qed.

(** X12: whatever the props, every reference inside the gateway stack --
    the handler of the method, the certificate of a created domain, the
    domain and API of the path mapping, the zone and target of a record,
    the metric sources and notified topic of the alarms, the sources of
    the published values -- names a construct the stack holds. *)
Theorem gateway_table_is_closed : closed (node (new_ApiGatewayStack id props)).
Proof.
  apply closedb_closed. branches; reflexivity.
Qed.

(** X13: the stage throttle is the rate limit if one is given, else 10, and
    the burst limit if one is given, else 25, each on its own: a throttling
    object that gives only one of the two leaves the other at its default. *)
Theorem throttle_defaults_apply_per_field :
  let stack := new_ApiGatewayStack id props in
  exists p rs,
    tryFindChild (restApi (fields stack)) (node stack) = Some (RestApi p rs)
    /\ throttlingRateLimit (deployOptions p)
       = match throttling props with
         | Some t => match rateLimit t with Some r => r | None => 10%Z end
         | None => 10%Z
         end
    /\ throttlingBurstLimit (deployOptions p)
       = match throttling props with
         | Some t => match burstLimit t with Some b => b | None => 25%Z end
         | None => 25%Z
         end.
Proof.
  destruct ApiGatewayStack_restApi as [Hapi _]. cbv zeta in *.
  do 2 eexists. split; [exact Hapi |].
  cbn. destruct (throttling props) as [[[r |] [b |]] |]; split; reflexivity.
Qed.

(** X14: whatever the props, the stack has exactly one REST API: regional,
    with the execute-api endpoint disabled, its stage named after the
    environment with INFO logging, data tracing off and metrics on; it has
    one resource, qlibin-assistant-listener, with one method, POST, proxied
    with a 29-second timeout to the function imported by the given name;
    the stack provisions no function itself. *)
Theorem one_listener_with_one_post_method :
  let stack := new_ApiGatewayStack id props in
  resourceCount "AWS::ApiGateway::RestApi" (node stack) = 1%nat
  /\ exists p integration,
       tryFindChild (restApi (fields stack)) (node stack)
       = Some (RestApi p [{| pathPart := "qlibin-assistant-listener";
                             methods := [("POST", integration)] |}])
       /\ endpointConfiguration p = [REGIONAL]
       /\ disableExecuteApiEndpoint p = true
       /\ stageName (deployOptions p) = environment props
       /\ loggingLevel (deployOptions p) = LOG_INFO
       /\ dataTraceEnabled (deployOptions p) = false
       /\ metricsEnabled (deployOptions p) = true
       /\ proxy integration = true
       /\ timeout integration = Duration.seconds 29
       /\ tryFindChild (handler integration) (node stack)
          = Some (ImportedFunction (lambdaFunctionName props))
       /\ resourceCount "AWS::Lambda::Function" (node stack) = 0%nat.
Proof.
  destruct ApiGatewayStack_restApi as [Hapi Hfn]. cbv zeta in *.
  split.
  - now destruct (ApiGatewayStack_counts id props) as (_ & _ & H & _).
  - do 2 eexists. split; [exact Hapi |].
    repeat split; try exact Hfn.
    clear. branches; reflexivity.
Qed.

(** X15: whatever the props, the gateway stack has exactly two alarms --
    5XX errors summed over 5 minutes, threshold 5, 2 periods; p95 latency
    over 5 minutes, threshold 5000, 3 periods; both not-breaching on missing
    data -- each notifying the stack's one topic on entering ALARM and on
    returning to OK; that topic names no encryption key, and the stack
    holds no key. *)
Theorem two_gateway_alarms_on_an_unencrypted_topic :
  let stack := new_ApiGatewayStack id props in
  let f := fields stack in
  let alarms := resourcesOfType "AWS::CloudWatch::Alarm" (node stack) in
  let over statistic name :=
    {| metricName := name; metricOf := restApi f;
       period := Some (Duration.minutes 5); statistic := Some statistic |} in
  map (fun ic => alarmSettings (snd ic)) alarms
  = [Some (over "Sum" "5XXError", 5, 2, Some NOT_BREACHING);
     Some (over "p95" "Latency", 5000, 3, Some NOT_BREACHING)]%Z
  /\ Forall (fun ic =>
       alarmWiring (snd ic)
       = Some ([SnsAction (apiAlertTopic f)], [SnsAction (apiAlertTopic f)])) alarms
  /\ map fst alarms = apiAlarms f
  /\ map fst (resourcesOfType "AWS::SNS::Topic" (node stack)) = [apiAlertTopic f]
  /\ option_map masterKey (topicAt (node stack) (apiAlertTopic f)) = Some None
  /\ resourceCount "AWS::KMS::Key" (node stack) = 0%nat.
Proof.
  branches; cbn;
    repeat match goal with |- _ /\ _ => split end;
    try reflexivity;
    repeat (apply Forall_cons; [reflexivity |]); apply Forall_nil.
Qed.

(** X16: whatever the props, the stack has exactly one path mapping; it
    binds the stack's custom domain -- created or imported, in both cases
    for the given domain name -- to the stack's REST API at its deployment
    stage under the given base path, and both the API and the domain are
    registered before it. *)
Theorem path_mapping_binds_domain_and_api :
  let stack := new_ApiGatewayStack id props in
  let f := fields stack in
  map snd (resourcesOfType "AWS::ApiGateway::BasePathMapping" (node stack))
  = [BasePathMapping {|
       bpm_domainName := customDomain f;
       bpm_restApi := restApi f;
       Cdk.basePath := basePath props;
       stage := deploymentStage (restApi f) |}]
  /\ (exists d, tryFindChild (customDomain f) (node stack) = Some d
       /\ match d with
          | DomainName p => dn_domainName p = domainName props
          | ImportedDomainName a => attr_domainName a = domainName props
          | _ => False
          end)
  /\ exists (n m k : nat),
       position (restApi f) (node stack) = Some n
       /\ position (customDomain f) (node stack) = Some m
       /\ position "BasePathMapping" (node stack) = Some k
       /\ (n < k)%nat /\ (m < k)%nat.
Proof.
  branches; cbn;
    (split; [reflexivity |]);
    (split; [eexists; split; [reflexivity | reflexivity] |]);
    do 3 eexists; repeat split; try reflexivity; cbn; lia.
Qed.

(** X17: whenever the stack keeps a DNS record, the record is the only one,
    it is for the given domain name in the zone imported from the given
    hosted-zone id and name, and its alias target is the stack's custom
    domain, which is then a domain the stack created (with the certificate
    and TLS 1.2) and never an imported one; the stack provisions no hosted
    zone.  When it keeps none, it provisions none. *)
Theorem dns_record_aliases_a_created_domain :
  let stack := new_ApiGatewayStack id props in
  let f := fields stack in
  (forall record, dnsRecord f = Some record ->
     exists zone_,
       tryFindChild record (node stack)
       = Some (ARecord {| zone := zone_; recordName := domainName props;
                          target := customDomain f |})
       /\ tryFindChild zone_ (node stack)
          = Some (ImportedHostedZone {| Cdk.hostedZoneId := hostedZoneId props;
                                        zoneName := hostedZoneName props |})
       /\ tryFindChild (customDomain f) (node stack)
          = Some (DomainName {| dn_domainName := domainName props;
                                certificate := "Certificate";
                                endpointType := REGIONAL;
                                securityPolicy := TLS_1_2 |})
       /\ resourceCount "AWS::Route53::RecordSet" (node stack) = 1%nat
       /\ resourceCount "AWS::Route53::HostedZone" (node stack) = 0%nat)
  /\ (dnsRecord f = None ->
      resourceCount "AWS::Route53::RecordSet" (node stack) = 0%nat).
Proof.
  branches; cbn; split;
    try (intros record Hrec; try discriminate Hrec;
         injection Hrec as <-; eexists; repeat split);
    try (intros Hnone; try discriminate Hnone; reflexivity).
Qed.

(** X18: with an alias target supplied and no alias zone, the domain is
    still created, from the certificate, and no DNS record is, even when
    the create-record flag is true: the record is gated on the alias target
    alone, the import on both fields. *)
Theorem target_without_zone_creates_a_domain_and_no_record :
  let stack := new_ApiGatewayStack id props in
  JS.truthy (existingDomainRegionalDomainName props) = true ->
  JS.truthy (existingDomainRegionalHostedZoneId props) = false ->
  resourceCount "AWS::ApiGateway::DomainName" (node stack) = 1%nat
  /\ tryFindChild (customDomain (fields stack)) (node stack)
     = Some (DomainName {| dn_domainName := domainName props;
                           certificate := "Certificate";
                           endpointType := REGIONAL;
                           securityPolicy := TLS_1_2 |})
  /\ tryFindChild "Certificate" (node stack)
     = Some (ImportedCertificate (certificateArn props))
  /\ resourceCount "AWS::Route53::RecordSet" (node stack) = 0%nat
  /\ dnsRecord (fields stack) = None.
Proof.
  cbv zeta. intros Ht Hz.
  destruct (ApiGatewayStack_domain_counts id props) as (Hd & Hr & Hf & Hc & _).
  destruct (ApiGatewayStack_domain id props) as (Hdom & Hcert).
  cbv zeta in Hd, Hr, Hf, Hc, Hdom, Hcert.
  rewrite Hd, Hr, Hf, Hc, Hdom, Ht, Hz, (narrow_falsy _ Hz).
  rewrite andb_false_r. cbn [negb].
  rewrite andb_false_r.
  repeat split.
  - now destruct (JS.narrow (existingDomainRegionalDomainName props)).
  - apply Hcert. now rewrite Ht, Hz.
Qed.

End GatewayTables.

Section Paths.
Import Cdk Template.

(** X19: for one environment, the nine parameter paths of the messaging
    stack and the five of the gateway stack are fourteen distinct paths. *)
Theorem parameter_paths_are_distinct
    (sqsId apiId : ConstructId)
    (sqsProps : SqsStack.SQSStackProps) (apiProps : ApiGateway.ApiGatewayStackProps) :
  SqsStack.environment sqsProps = ApiGateway.environment apiProps ->
  let paths :=
    (map fst (parameters (SqsStack.node (SqsStack.new_SQSStack sqsId sqsProps)))
     ++ map fst (parameters
                   (ApiGateway.node
                      (ApiGateway.new_ApiGatewayStack apiId apiProps))))%list in
  NoDup paths /\ length paths = 14%nat.
Proof.
  intros He. cbv zeta.
  rewrite SQSStack_parameter_paths.
  destruct (ApiGatewayStack_counts apiId apiProps) as (_ & _ & _ & Hp).
  cbv zeta in Hp. rewrite Hp, He.
  set (e := ApiGateway.environment apiProps).
  split; [| reflexivity].
  change (NoDup (map (fun c => "/automation/" ++ e ++ "/" ++ c)
                     (MessagingContract.categories
                      ++ map (fun c => "api-gateway/" ++ c)
                           ["rest-api-id"; "rest-api-url"; "domain-name";
                            "stage-name"; "source-arn"]))).
  apply NoDup_map_NoDup_ForallPairs.
  - intros x y _ _ H. now do 3 apply append_cancel_l in H.
  - cbn.
    repeat (apply NoDup_cons; [cbn; intuition discriminate |]).
    apply NoDup_nil.
Qed.

End Paths.

(* ------------------------------------------------------------------ *)
(** ** More on the app entry point *)

Section Runs.
Import Cdk Bin Orchestrator Contract Deployment Template.

(** Every run either fails on the fresh app, or is the instantiation of the
    resolved configuration after a check that passed. *)
Lemma run_outcome (ctx : Context) (AWS_ACCOUNT_ID : option string) :
  (exists message, run ctx AWS_ACCOUNT_ID = (inl (mkError message), new_App))
  \/ (exists name cfg,
        fst (resolveEnvironment ctx new_App) = inr (name, cfg)
        /\ (JS.truthy AWS_ACCOUNT_ID = false \/ AWS_ACCOUNT_ID = Some (account cfg))
        /\ run ctx AWS_ACCOUNT_ID = instantiate cfg new_App).
Proof.
  destruct (fst (resolveEnvironment ctx new_App)) as [[m] | [name cfg]] eqn:Hres.
  - left. exists m.
    pose proof (resolveEnvironment_pure ctx new_App) as Hpure.
    unfold run, main, bind.
    destruct (resolveEnvironment ctx new_App) as [[e' | r] app]; simpl in *.
    + injection Hres as ->. now subst.
    + discriminate.
  - rewrite (run_resolved _ _ _ _ Hres). unfold checkAccount.
    rewrite (truthy_narrow AWS_ACCOUNT_ID).
    destruct AWS_ACCOUNT_ID as [p |]; simpl.
    + destruct (p =? EmptyString) eqn:Ep.
      * right. exists name, cfg. auto.
      * destruct (String.eqb_spec p (account cfg)) as [-> | _]; simpl.
        -- right. exists name, cfg. auto.
        -- left. eexists. reflexivity.
    + right. exists name, cfg. auto.
Qed.

Lemma successful_run (ctx : Context) (AWS_ACCOUNT_ID : option string) :
  fst (run ctx AWS_ACCOUNT_ID) = inr tt ->
  exists name cfg,
    fst (resolveEnvironment ctx new_App) = inr (name, cfg)
    /\ run ctx AWS_ACCOUNT_ID = instantiate cfg new_App.
Proof.
  intros Hok.
  destruct (run_outcome ctx AWS_ACCOUNT_ID)
    as [[m Hrun] | (name & cfg & Hres & _ & Hrun)].
  - rewrite Hrun in Hok. discriminate.
  - now exists name, cfg.
Qed.

(** With a registry that has entries, resolution is the lookup of the first
    environment name given. *)
Lemma resolveEnvironment_spec (ctx : Context) (envs : list (string * EnvConfig)) :
  ctx_environments ctx = Some envs -> envs <> [] ->
  resolveEnvironment ctx new_App =
  match get envs (firstNamed ctx) with
  | Some cfg => (inr (firstNamed ctx, cfg), new_App)
  | None =>
      (inl (mkError ("Unknown environment '" ++ firstNamed ctx ++ "'. Available: "
                       ++ JS.join ", " (Object_keys envs))), new_App)
  end.
Proof.
  intros He Hne. unfold resolveEnvironment, firstNamed. rewrite He.
  destruct envs as [| e0 rest]; [contradiction |].
  cbn [length Object_keys map Nat.eqb]. cbv zeta.
  destruct (ctx_environment ctx), (ctx_ENV_NAME ctx), (ctx_defaultEnvironment ctx);
    cbn [JS.nullish_opt JS.nullish];
    match goal with |- context [get ?l ?k] => destruct (get l k) end; reflexivity.
Qed.

(** The app an instantiation leaves, and the props its stacks were given. *)
Lemma instantiate_app (cfg : EnvConfig) :
  let sqsId := "DualQueueMessageStack-" ++ envName cfg in
  let apiId := "ApiGatewayStack-" ++ envName cfg in
  let shared := [("app", "telegram-webhook"); ("env", envName cfg)] in
  exists sqs,
    (if gatewayConfigured cfg
     then exists api,
       snd (instantiate cfg new_App)
       = {| stacks := [(sqsId, SQS sqs); (apiId, API api)];
            stackTags := (map (pair sqsId) shared ++ map (pair apiId) shared)%list;
            dependencies := [(apiId, sqsId)] |}
       /\ ApiGateway.id api = apiId
       /\ api = ApiGateway.new_ApiGatewayStack apiId (ApiGateway.props_of api)
       /\ ApiGateway.environment (ApiGateway.props_of api) = envName cfg
       /\ ApiGateway.projectName (ApiGateway.props_of api) = projectName
       /\ ApiGateway.basePath (ApiGateway.props_of api) = envName cfg
       /\ ApiGateway.lambdaFunctionName (ApiGateway.props_of api)
          = "telegram-webhook-lambda-" ++ envName cfg
       /\ certificateArn cfg = Some (ApiGateway.certificateArn (ApiGateway.props_of api))
       /\ hostedZoneId cfg = Some (ApiGateway.hostedZoneId (ApiGateway.props_of api))
       /\ hostedZoneName cfg = Some (ApiGateway.hostedZoneName (ApiGateway.props_of api))
       /\ domainName cfg = Some (ApiGateway.domainName (ApiGateway.props_of api))
       /\ ApiGateway.existingDomainRegionalDomainName (ApiGateway.props_of api)
          = existingDomainRegionalDomainName cfg
       /\ ApiGateway.existingDomainRegionalHostedZoneId (ApiGateway.props_of api)
          = existingDomainRegionalHostedZoneId cfg
       /\ ApiGateway.createDnsRecord (ApiGateway.props_of api) = Some false
       /\ ApiGateway.throttling (ApiGateway.props_of api) = None
     else
       snd (instantiate cfg new_App)
       = {| stacks := [(sqsId, SQS sqs)];
            stackTags := map (pair sqsId) shared;
            dependencies := [] |})
    /\ SqsStack.id sqs = sqsId
    /\ sqs = SqsStack.new_SQSStack sqsId (SqsStack.props_of sqs)
    /\ SqsStack.environment (SqsStack.props_of sqs) = envName cfg
    /\ SqsStack.projectName (SqsStack.props_of sqs) = projectName
    /\ SqsStack.enableEncryption (SqsStack.props_of sqs) = None
    /\ SqsStack.orderQueueConfig (SqsStack.props_of sqs) = None
    /\ SqsStack.resultQueueConfig (SqsStack.props_of sqs) = None
    /\ Stack_account (SqsStack.stackProps (SqsStack.props_of sqs)) = Lit (account cfg).
Proof.
  cbv zeta. unfold gatewayConfigured, instantiate.
  rewrite !truthy_narrow.
  eexists. split.
  - destruct (certificateArn cfg) as [c |] eqn:Ec; cbn [JS.narrow].
    2: { cbn. reflexivity. }
    destruct (c =? EmptyString) eqn:Ece.
    { cbn. reflexivity. }
    destruct (hostedZoneId cfg) as [z |] eqn:Ez; cbn [JS.narrow].
    2: { cbn. reflexivity. }
    destruct (z =? EmptyString) eqn:Eze.
    { cbn. reflexivity. }
    destruct (hostedZoneName cfg) as [zn |] eqn:Ezn; cbn [JS.narrow].
    2: { cbn. reflexivity. }
    destruct (zn =? EmptyString) eqn:Ezne.
    { cbn. reflexivity. }
    destruct (domainName cfg) as [d |] eqn:Ed; cbn [JS.narrow].
    2: { cbn. reflexivity. }
    destruct (d =? EmptyString) eqn:Ede.
    { cbn. reflexivity. }
    cbn [andb]. eexists. split; [reflexivity |].
    repeat split.
  - repeat split.
Qed.

(** The props tags an instantiation hands every stack. *)
Lemma instantiate_props_tags (cfg : EnvConfig) :
  Forall (fun entry => propsTagsOf (snd entry) = Some (Bin.tags cfg ?? []))
         (stacks (snd (instantiate cfg new_App))).
Proof.
  unfold instantiate.
  destruct (JS.narrow (certificateArn cfg));
    [destruct (JS.narrow (hostedZoneId cfg));
     [destruct (JS.narrow (hostedZoneName cfg));
      [destruct (JS.narrow (domainName cfg)) | ] | ] | ];
    cbn; repeat (apply Forall_cons || apply Forall_nil); reflexivity.
Qed.

Variable ctx : Context.
Variable AWS_ACCOUNT_ID : option string.

(** X20: with no environment registry in the context, or an empty one, the
    run fails with the context-missing error on the fresh app, whatever the
    environment names and the account identifier are. *)
Theorem missing_registry_is_fatal :
  ctx_environments ctx = None \/ ctx_environments ctx = Some [] ->
  run ctx AWS_ACCOUNT_ID
  = (inl (mkError
       "CDK context missing. Ensure cdk.json has context.environments configured."),
     new_App).
Proof.
  intros H. unfold run, main, bind, resolveEnvironment.
  destruct H as [-> | ->]; reflexivity.
Qed.

(** X21: with a registry that has entries but none under the first
    environment name given, and that name not one every object answers to
    (constructor, toString and the other members of Object.prototype), the
    run fails on the fresh app, before the account identifier is looked at,
    with a message that quotes that name and contains the name of every
    registered environment. *)
Theorem unknown_environment_names_the_alternatives
    (envs : list (string * EnvConfig)) :
  ctx_environments ctx = Some envs -> envs <> [] ->
  ~ In (firstNamed ctx) inherited ->
  get envs (firstNamed ctx) = None ->
  exists message,
    run ctx AWS_ACCOUNT_ID = (inl (mkError message), new_App)
    /\ contains message ("'" ++ firstNamed ctx ++ "'")
    /\ Forall (fun entry => contains message (fst entry)) envs.
Proof.
  intros He Hne _ Hget.
  pose proof (resolveEnvironment_spec ctx envs He Hne) as Hres.
  rewrite Hget in Hres.
  eexists. split; [| split].
  - unfold run, main, bind. rewrite Hres. reflexivity.
  - exists "Unknown environment ", (". Available: " ++ JS.join ", " (Object_keys envs)).
    simpl. now rewrite append_assoc.
  - apply Forall_forall. intros [k v] Hin. cbn [fst].
    do 3 apply contains_after.
    apply join_contains. unfold Object_keys.
    apply in_map_iff. now exists (k, v).
Qed.

(** X22: the environment a run is for is the first one named among context
    [environment], context [ENV_NAME] and [defaultEnvironment], and dev when
    none is named; a name set to the empty string counts as named.  The
    configuration used is the registry's entry under that name. *)
Theorem environment_is_the_first_named
    (envs : list (string * EnvConfig)) (cfg : EnvConfig) :
  ctx_environments ctx = Some envs ->
  get envs (firstNamed ctx) = Some cfg ->
  fst (resolveEnvironment ctx new_App) = inr (firstNamed ctx, cfg)
  /\ (JS.truthy AWS_ACCOUNT_ID = false \/ AWS_ACCOUNT_ID = Some (account cfg) ->
      run ctx AWS_ACCOUNT_ID = instantiate cfg new_App).
Proof.
  intros He Hget.
  assert (Hne : envs <> []) by (intros ->; discriminate).
  assert (Hres : fst (resolveEnvironment ctx new_App) = inr (firstNamed ctx, cfg))
    by now rewrite (resolveEnvironment_spec ctx envs He Hne), Hget.
  split; [exact Hres |].
  intros [Hnone | ->].
  - rewrite (run_resolved _ _ _ _ Hres).
    unfold checkAccount. now rewrite (narrow_falsy _ Hnone).
  - now apply matching_account_id_passes with (firstNamed ctx).
Qed.

(** X23: when the first environment name given is not one every object
    answers to (constructor, toString and the other members of
    Object.prototype), a run the script stops with one of its own three
    errors (context missing, unknown environment, account mismatch) leaves
    the app as fresh as it found it: no stack, no tag, no dependency. *)
Theorem failed_run_builds_nothing (e : Error) :
  ~ In (firstNamed ctx) inherited ->
  fst (run ctx AWS_ACCOUNT_ID) = inl e -> snd (run ctx AWS_ACCOUNT_ID) = new_App.
Proof.
  intros _ Hfail.
  destruct (run_outcome ctx AWS_ACCOUNT_ID)
    as [[m Hrun] | (name & cfg & _ & _ & Hrun)].
  - now rewrite Hrun.
  - rewrite Hrun in Hfail.
    destruct (instantiate_stacks cfg) as (Hok & _). congruence.
Qed.

(** X24: after a successful run every stack of the app was given the tags
    of the resolved environment configuration as its props tags (an empty
    record when the configuration has none), and the script added exactly
    two tags to it, app=telegram-webhook and env=its environment, in that
    order; the script adds a tag to nothing but a stack of the app. *)
Theorem script_tags_every_stack (name : string) (cfg : EnvConfig) :
  fst (resolveEnvironment ctx new_App) = inr (name, cfg) ->
  fst (run ctx AWS_ACCOUNT_ID) = inr tt ->
  let app := snd (run ctx AWS_ACCOUNT_ID) in
  Forall (fun entry =>
            propsTagsOf (snd entry) = Some (Bin.tags cfg ?? [])
            /\ tagsOf app (fst entry)
               = [("app", "telegram-webhook"); ("env", environmentOf (snd entry))])
         (stacks app)
  /\ Forall (fun tag => In (fst tag) (map fst (stacks app))) (stackTags app).
Proof.
  intros Hres Hok. cbv zeta.
  destruct (successful_run _ _ Hok) as (name' & cfg' & Hres' & ->).
  rewrite Hres in Hres'. injection Hres' as _ <-.
  pose proof (instantiate_props_tags cfg) as Hprops.
  destruct (instantiate_app cfg) as (sqs & Happ & _ & _ & He & _).
  cbv zeta in Happ.
  destruct (gatewayConfigured cfg).
  - destruct Happ as (api & Happ & _ & _ & Hae & _).
    rewrite Happ in Hprops |- *. cbn [stacks] in Hprops.
    apply Forall_cons_iff in Hprops as [Hs Hprops].
    apply Forall_inv in Hprops as Ha. cbn [snd] in Hs, Ha.
    split.
    + repeat (apply Forall_cons || apply Forall_nil);
        (split; [assumption |]);
        unfold tagsOf; cbn; rewrite ?String.eqb_refl; cbn; congruence.
    + repeat (apply Forall_cons || apply Forall_nil); cbn; tauto.
  - rewrite Happ in Hprops |- *. cbn [stacks] in Hprops.
    apply Forall_inv in Hprops as Hs. cbn [snd] in Hs.
    split.
    + repeat (apply Forall_cons || apply Forall_nil);
        (split; [assumption |]);
        unfold tagsOf; cbn; rewrite ?String.eqb_refl; cbn; congruence.
    + repeat (apply Forall_cons || apply Forall_nil); cbn; tauto.
Qed.

(** X25: after a successful run the app holds exactly one messaging stack,
    registered first, and at most one gateway stack; the dependencies
    recorded are exactly: each gateway stack on that messaging stack. *)
Theorem gateway_depends_on_the_messaging_stack :
  fst (run ctx AWS_ACCOUNT_ID) = inr tt ->
  let app := snd (run ctx AWS_ACCOUNT_ID) in
  exists sqsId sqs,
    hd_error (stacks app) = Some (sqsId, SQS sqs)
    /\ sqsStacks app = [sqs]
    /\ (length (apiStacks app) <= 1)%nat
    /\ dependencies app = map (fun api => (ApiGateway.id api, sqsId)) (apiStacks app).
Proof.
  intros Hok. cbv zeta.
  destruct (successful_run _ _ Hok) as (name & cfg & _ & ->).
  destruct (instantiate_app cfg) as (sqs & Happ & _).
  cbv zeta in Happ.
  exists ("DualQueueMessageStack-" ++ envName cfg), sqs.
  destruct (gatewayConfigured cfg).
  - destruct Happ as (api & -> & Hid & _). cbn. rewrite Hid. repeat split. lia.
  - rewrite Happ. cbn. repeat split. lia.
Qed.

(** X26: the script passes the messaging stack no tuning and no encryption
    flag, so after every successful run the one messaging stack is for
    project tg-assistant, its four queues all name the shared key, and its
    primary queues have the default 300 and 180 second visibility timeouts
    and the default redrive threshold 3. *)
Theorem deployed_queues_are_encrypted_with_defaults :
  fst (run ctx AWS_ACCOUNT_ID) = inr tt ->
  let app := snd (run ctx AWS_ACCOUNT_ID) in
  exists sqs,
    sqsStacks app = [sqs]
    /\ SqsStack.projectName (SqsStack.props_of sqs) = "tg-assistant"
    /\ MessagingContract.allQueuesEncrypted sqs
    /\ map (Integrity.tuningAt (SqsStack.node sqs))
           [SqsStack.orderQueue (SqsStack.fields sqs);
            SqsStack.resultQueue (SqsStack.fields sqs)]
       = [Some (Some (Duration.seconds 300), Some 3%Z);
          Some (Some (Duration.seconds 180), Some 3%Z)].
Proof.
  intros Hok. cbv zeta.
  destruct (successful_run _ _ Hok) as (name & cfg & _ & ->).
  destruct (instantiate_app cfg)
    as (sqs & Happ & _ & Hsqs & _ & Hp & Henc & Ho & Hr & _).
  cbv zeta in Happ.
  exists sqs. split.
  - destruct (gatewayConfigured cfg).
    + now destruct Happ as (api & -> & _).
    + now rewrite Happ.
  - split; [exact Hp |].
    rewrite Hsqs.
    destruct (SqsStack.props_of sqs) as [sp e pn enc co wt oc rc].
    cbn in Henc, Ho, Hr. subst enc oc rc.
    split.
    + unfold MessagingContract.allQueuesEncrypted. cbn.
      repeat (apply Forall_cons; [eexists; split; reflexivity |]); apply Forall_nil.
    + reflexivity.
Qed.

(** X27: the script always passes the gateway stack createDnsRecord false
    and no throttling, so a gateway stack left by a run never holds a DNS
    record, is throttled at 10 and 25, has its stage and its base path both
    named after its environment, and proxies to the function named
    telegram-webhook-lambda-{environment}. *)
Theorem deployed_gateway_never_creates_a_record
    (api : ApiGateway.ApiGatewayStack) :
  In api (apiStacks (snd (run ctx AWS_ACCOUNT_ID))) ->
  let table := ApiGateway.node api in
  resourceCount "AWS::Route53::RecordSet" table = 0%nat
  /\ ApiGateway.dnsRecord (ApiGateway.fields api) = None
  /\ exists p rs mapping,
       tryFindChild (ApiGateway.restApi (ApiGateway.fields api)) table
       = Some (RestApi p rs)
       /\ map snd (resourcesOfType "AWS::ApiGateway::BasePathMapping" table)
          = [BasePathMapping mapping]
       /\ stageName (deployOptions p) = ApiGateway.environment (ApiGateway.props_of api)
       /\ basePath mapping = ApiGateway.environment (ApiGateway.props_of api)
       /\ throttlingRateLimit (deployOptions p) = 10%Z
       /\ throttlingBurstLimit (deployOptions p) = 25%Z
       /\ tryFindChild "WebhookLambda" table
          = Some (ImportedFunction
                    ("telegram-webhook-lambda-"
                       ++ ApiGateway.environment (ApiGateway.props_of api))).
Proof.
  intros Hin. cbv zeta.
  destruct (run_outcome ctx AWS_ACCOUNT_ID)
    as [[m Hrun] | (name & cfg & _ & _ & Hrun)];
    rewrite Hrun in Hin; [destruct Hin |].
  destruct (instantiate_app cfg) as (sqs & Happ & _).
  cbv zeta in Happ.
  destruct (gatewayConfigured cfg).
  2: { rewrite Happ in Hin. destruct Hin. }
  destruct Happ
    as (api' & Happ & _ & Hapi & He & _ & Hb & Hl & _ & _ & _ & _ & _ & _ & Hflag & Hth).
  rewrite Happ in Hin. destruct Hin as [<- | []].
  rewrite Hapi.
  destruct (ApiGatewayStack_domain_counts
              ("ApiGatewayStack-" ++ envName cfg) (ApiGateway.props_of api'))
    as (_ & Hr & Hf & _).
  destruct (ApiGatewayStack_restApi
              ("ApiGatewayStack-" ++ envName cfg) (ApiGateway.props_of api'))
    as (Hrest & Hfn).
  pose proof (ApiGatewayStack_mapping
                ("ApiGatewayStack-" ++ envName cfg) (ApiGateway.props_of api')) as Hmap.
  cbv zeta in Hr, Hf, Hrest, Hfn, Hmap.
  unfold GatewayContract.createRecordFlag in Hr, Hf.
  rewrite Hflag in Hr, Hf. cbn [andb] in Hr, Hf.
  split; [exact Hr |]. split; [exact Hf |].
  do 3 eexists. split; [exact Hrest |]. split; [exact Hmap |].
  cbn [deployOptions stageName throttlingRateLimit throttlingBurstLimit basePath
       SqsStack.props_of ApiGateway.props_of ApiGateway.new_ApiGatewayStack].
  rewrite Hth, Hfn, Hl, Hb, He. repeat split.
Qed.

End Runs.

(* ------------------------------------------------------------------ *)
(** ** The further theorems at concrete configurations *)

(** X10 at the same pair: another region, description and tags, the
    reserved props filled in, the defaults spelled out. *)
Lemma unread_props_witness :
  SqsStack.node (SqsStack.new_SQSStack "TestStack" Samples.sqsProps)
  = SqsStack.node (SqsStack.new_SQSStack "OtherStack" MoreSamples.sqsPropsSpelledOut).
Proof.
  destruct (unread_props_do_not_reach_the_graph "TestStack" "OtherStack"
              Samples.sqsProps MoreSamples.sqsPropsSpelledOut
              eq_refl eq_refl eq_refl eq_refl eq_refl eq_refl eq_refl eq_refl)
    as [H _].
  exact H.
Defined.

(** X17 at the greenfield gateway test props, which keep a record. *)
Lemma dns_record_witness :
  ApiGateway.dnsRecord
    (ApiGateway.fields
       (ApiGateway.new_ApiGatewayStack "TestApiGatewayStack" Samples.apiPropsNewDomain))
  = Some "ApiAliasRecord"
  /\ Template.resourceCount "AWS::Route53::RecordSet"
       (ApiGateway.node
          (ApiGateway.new_ApiGatewayStack "TestApiGatewayStack"
             Samples.apiPropsNewDomain))
     = 1%nat.
Proof.
  split; [reflexivity |].
  destruct (dns_record_aliases_a_created_domain "TestApiGatewayStack"
              Samples.apiPropsNewDomain) as [Hrecord _].
  destruct (Hrecord "ApiAliasRecord" eq_refl) as (zone_ & _ & _ & _ & Hcount & _).
  exact Hcount.
Defined.

(** X18 at gateway props with an alias target, no alias zone and the
    create-record flag true. *)
Lemma target_without_zone_witness :
  (JS.truthy (ApiGateway.existingDomainRegionalDomainName
                MoreSamples.apiPropsTargetOnly) = true
   /\ JS.truthy (ApiGateway.existingDomainRegionalHostedZoneId
                   MoreSamples.apiPropsTargetOnly) = false
   /\ ApiGateway.createDnsRecord MoreSamples.apiPropsTargetOnly = Some true)
  /\ Template.resourceCount "AWS::ApiGateway::DomainName"
       (ApiGateway.node
          (ApiGateway.new_ApiGatewayStack "TestApiGatewayStack"
             MoreSamples.apiPropsTargetOnly)) = 1%nat
  /\ Template.resourceCount "AWS::Route53::RecordSet"
       (ApiGateway.node
          (ApiGateway.new_ApiGatewayStack "TestApiGatewayStack"
             MoreSamples.apiPropsTargetOnly)) = 0%nat.
Proof.
  split; [repeat split |].
  destruct (target_without_zone_creates_a_domain_and_no_record
              "TestApiGatewayStack" MoreSamples.apiPropsTargetOnly eq_refl eq_refl)
    as (Hd & _ & _ & Hr & _).
  split; assumption.
Defined.

(** X19 at the two test configurations, both for dev. *)
Lemma parameter_paths_witness :
  NoDup
    (map fst (Template.parameters
                (SqsStack.node (SqsStack.new_SQSStack "TestStack" Samples.sqsProps)))
     ++ map fst (Template.parameters
                   (ApiGateway.node
                      (ApiGateway.new_ApiGatewayStack "TestApiGatewayStack"
                         Samples.apiPropsImported))))%list.
Proof.
  destruct (parameter_paths_are_distinct "TestStack" "TestApiGatewayStack"
              Samples.sqsProps Samples.apiPropsImported eq_refl) as [H _].
  exact H.
Defined.

(** X20 at a context whose registry is empty, with an account supplied. *)
Lemma missing_registry_witness :
  Orchestrator.run MoreSamples.emptyContext (Some "123456789012")
  = (inl (Bin.mkError
       "CDK context missing. Ensure cdk.json has context.environments configured."),
     Bin.new_App).
Proof.
  apply (missing_registry_is_fatal MoreSamples.emptyContext (Some "123456789012")).
  right. reflexivity.
Defined.

(** X21 at the sample registry, asked for staging. *)
Lemma unknown_environment_witness :
  exists message,
    Orchestrator.run (Samples.contextFor "staging") None
    = (inl (Bin.mkError message), Bin.new_App)
    /\ Contract.contains message "'staging'"
    /\ Forall (fun name => Contract.contains message name) ["dev"; "prod"; "test"].
Proof.
  destruct (unknown_environment_names_the_alternatives
              (Samples.contextFor "staging") None
              [("dev", Samples.devCfg); ("prod", Samples.prodCfg);
               ("test", Samples.importOnlyCfg)])
    as (message & Hrun & Hname & Hall).
  - reflexivity.
  - discriminate.
  - cbn. intuition discriminate.
  - reflexivity.
  - exists message. split; [exact Hrun |]. split; [exact Hname |].
    inversion Hall as [| ? ? Hdev Hrest]; subst.
    inversion Hrest as [| ? ? Hprod Hrest']; subst.
    inversion Hrest' as [| ? ? Htest _]; subst.
    repeat constructor; assumption.
Defined.

(** X22 at the sample registry, asked for prod by the context while the
    default says dev. *)
Lemma environment_precedence_witness :
  fst (Orchestrator.resolveEnvironment (Samples.contextFor "prod") Bin.new_App)
  = inr ("prod", Samples.prodCfg).
Proof.
  destruct (environment_is_the_first_named (Samples.contextFor "prod") None
              [("dev", Samples.devCfg); ("prod", Samples.prodCfg);
               ("test", Samples.importOnlyCfg)]
              Samples.prodCfg eq_refl eq_refl) as [H _].
  exact H.
Defined.

(** X23 at the run for staging, which fails. *)
Lemma failed_run_witness :
  snd (Orchestrator.run (Samples.contextFor "staging") None) = Bin.new_App.
Proof.
  apply (failed_run_builds_nothing (Samples.contextFor "staging") None
           (Bin.mkError "Unknown environment 'staging'. Available: dev, prod, test")).
  - cbn. intuition discriminate.
  - reflexivity.
Defined.

(** X24 at the run for prod, on its gateway stack. *)
Lemma script_tags_witness :
  Deployment.tagsOf (snd (Orchestrator.run (Samples.contextFor "prod") None))
    "ApiGatewayStack-prod"
  = [("app", "telegram-webhook"); ("env", "prod")].
Proof.
  destruct (script_tags_every_stack (Samples.contextFor "prod") None
              "prod" Samples.prodCfg eq_refl eq_refl)
    as [Htags _].
  cbv zeta in Htags.
  apply Forall_inv_tail, Forall_inv in Htags.
  exact (proj2 Htags).
Defined.

(** X25 at the run for prod. *)
Lemma gateway_dependency_witness :
  Bin.dependencies (snd (Orchestrator.run (Samples.contextFor "prod") None))
  = [("ApiGatewayStack-prod", "DualQueueMessageStack-prod")].
Proof.
  destruct (gateway_depends_on_the_messaging_stack
              (Samples.contextFor "prod") None eq_refl)
    as (sqsId & sqs & Hhd & _ & _ & Hdeps).
  cbv zeta in Hhd, Hdeps.
  injection Hhd as <- _.
  exact Hdeps.
Defined.

(** X26 at the run for dev. *)
Lemma deployed_queues_witness :
  exists sqs,
    Deployment.sqsStacks (snd (Orchestrator.run Samples.context None)) = [sqs]
    /\ MessagingContract.allQueuesEncrypted sqs.
Proof.
  destruct (deployed_queues_are_encrypted_with_defaults Samples.context None eq_refl)
    as (sqs & Hone & _ & Henc & _).
  now exists sqs.
Defined.

(** X27 at the run for prod. *)
Lemma deployed_gateway_witness :
  exists api,
    In api (Deployment.apiStacks
              (snd (Orchestrator.run (Samples.contextFor "prod") None)))
    /\ Template.resourceCount "AWS::Route53::RecordSet" (ApiGateway.node api) = 0%nat.
Proof.
  eexists. split.
  - left. reflexivity.
  - match goal with
    | |- Template.resourceCount _ (ApiGateway.node ?a) = _ =>
        destruct (deployed_gateway_never_creates_a_record
                    (Samples.contextFor "prod") None a (or_introl eq_refl))
          as [H _]; exact H
    end.
Defined.
